(** * Leaf disease detection service: the response extractor and the
      [/analyze] endpoint of [main.py].

    The extractor [parse_analysis_response] turns the free text returned by
    the vision model into a seven-field record.  The development first
    embeds the Python [str] methods the extractor uses ([strip], [split],
    [startswith], [replace], slicing), then the extractor itself, then the
    endpoint with its [try]/[except] block, the badge class of the front
    end ([app.py]) and the summary of the test script ([test_api.py]), and
    finally proves the properties of the specification and further
    properties of the code. *)

From Stdlib Require Import Ascii String DecimalString.
From Stdlib Require Import List NArith ZArith Bool Lia.
Import ListNotations.

(** ** Python strings *)

Module PyStr.

(** A Python [str] is a finite sequence of Unicode code points. *)
Definition char := N.
Definition str := list char.

(** A literal of the source, read as the code points of its characters. *)
Definition lit (s : string) : str :=
  map N_of_ascii (list_ascii_of_string s).

Definition newline : char := 10%N.
Definition semicolon : char := 59%N.

(** [c.isspace()]: the code points CPython classifies as whitespace, which
    are the ones [str.strip()] without argument removes. *)
Definition isspace (c : char) : bool :=
  ((9 <=? c) && (c <=? 13)
   || (28 <=? c) && (c <=? 32)
   || (c =? 133) || (c =? 160) || (c =? 5760)
   || (8192 <=? c) && (c <=? 8202)
   || (c =? 8232) || (c =? 8233) || (c =? 8239) || (c =? 8287)
   || (c =? 12288))%N.

(** Truthiness of a [str] or a list: [not x] holds exactly for the empty one. *)
Definition is_empty {A : Type} (l : list A) : bool :=
  match l with
  | [] => true
  | _ :: _ => false
  end.

Fixpoint lstrip (s : str) : str :=
  match s with
  | [] => []
  | c :: s' => if isspace c then lstrip s' else s
  end.

Definition rstrip (s : str) : str := rev (lstrip (rev s)).

(** [s.strip()] *)
Definition strip (s : str) : str := rstrip (lstrip s).

(** [s.split(sep)] for a one-character separator: never the empty list. *)
Fixpoint split (sep : char) (s : str) : list str :=
  match s with
  | [] => [[]]
  | c :: s' =>
      if (c =? sep)%N then [] :: split sep s'
      else match split sep s' with
           | [] => [[c]]
           | w :: ws => (c :: w) :: ws
           end
  end.

(** [s.startswith(prefix)] *)
Fixpoint startswith (s prefix : str) {struct prefix} : bool :=
  match prefix with
  | [] => true
  | p :: prefix' =>
      match s with
      | [] => false
      | c :: s' => (c =? p)%N && startswith s' prefix'
      end
  end.

(** [s.replace(old, new)]: every occurrence of [old], found left to right
    and without overlap, is replaced.  [skip] counts the characters of an
    occurrence already replaced that are still to be passed over. *)
Fixpoint replace_from (old new : str) (skip : nat) (s : str) : str :=
  match s with
  | [] => []
  | c :: s' =>
      match skip with
      | S k => replace_from old new k s'
      | O =>
          if startswith s old
          then new ++ replace_from old new (length old - 1) s'
          else c :: replace_from old new 0 s'
      end
  end.

Definition replace (s old new : str) : str :=
  match old with
  | [] => new ++ flat_map (fun c => c :: new) s
  | _ :: _ => replace_from old new 0 s
  end.

(** [s[:n]] *)
Definition slice_to (n : nat) (s : str) : str := firstn n s.

(** [sep.join(parts)] for a one-character separator; used to state what
    [split] computes and to write multi-line inputs. *)
Fixpoint join (sep : char) (parts : list str) : str :=
  match parts with
  | [] => []
  | [w] => w
  | w :: ws => w ++ sep :: join sep ws
  end.

(** [old] occurs somewhere in [s]. *)
Fixpoint occurs (old s : str) : bool :=
  startswith s old ||
  match s with
  | [] => false
  | _ :: s' => occurs old s'
  end.

End PyStr.

Import PyStr.

(** ** The extractor *)

(** The dictionary [analysis] is created with exactly seven keys and only
    those keys are ever assigned, so it is a record. *)
Record Analysis : Type := mkAnalysis {
  disease_name : str;
  confidence : str;
  description : str;
  symptoms : list str;
  treatment : list str;
  prevention : list str;
  severity : str
}.

Definition TAG_DISEASE_NAME : str := Eval cbv in lit "DISEASE NAME:".
Definition TAG_CONFIDENCE : str := Eval cbv in lit "CONFIDENCE:".
Definition TAG_DESCRIPTION : str := Eval cbv in lit "DESCRIPTION:".
Definition TAG_SYMPTOMS : str := Eval cbv in lit "SYMPTOMS:".
Definition TAG_TREATMENT : str := Eval cbv in lit "TREATMENT:".
Definition TAG_PREVENTION : str := Eval cbv in lit "PREVENTION:".
Definition TAG_SEVERITY : str := Eval cbv in lit "SEVERITY:".

Definition ELLIPSIS : str := Eval cbv in lit "...".
Definition FALLBACK_SYMPTOMS : list str :=
  Eval cbv in [lit "Analysis completed - check description for details"].
Definition FALLBACK_TREATMENT : list str :=
  Eval cbv in [lit "Consult with agricultural expert for specific treatment"].
Definition FALLBACK_PREVENTION : list str :=
  Eval cbv in [lit "Maintain proper plant hygiene and monitoring"].

Definition initial_analysis : Analysis :=
  {| disease_name := lit "Unknown";
     confidence := lit "Medium";
     description := [];
     symptoms := [];
     treatment := [];
     prevention := [];
     severity := lit "Unknown" |}.

Definition set_disease_name (a : Analysis) (v : str) : Analysis :=
  mkAnalysis v (confidence a) (description a) (symptoms a) (treatment a)
    (prevention a) (severity a).
Definition set_confidence (a : Analysis) (v : str) : Analysis :=
  mkAnalysis (disease_name a) v (description a) (symptoms a) (treatment a)
    (prevention a) (severity a).
Definition set_description (a : Analysis) (v : str) : Analysis :=
  mkAnalysis (disease_name a) (confidence a) v (symptoms a) (treatment a)
    (prevention a) (severity a).
Definition set_symptoms (a : Analysis) (v : list str) : Analysis :=
  mkAnalysis (disease_name a) (confidence a) (description a) v (treatment a)
    (prevention a) (severity a).
Definition set_treatment (a : Analysis) (v : list str) : Analysis :=
  mkAnalysis (disease_name a) (confidence a) (description a) (symptoms a) v
    (prevention a) (severity a).
Definition set_prevention (a : Analysis) (v : list str) : Analysis :=
  mkAnalysis (disease_name a) (confidence a) (description a) (symptoms a)
    (treatment a) v (severity a).
Definition set_severity (a : Analysis) (v : str) : Analysis :=
  mkAnalysis (disease_name a) (confidence a) (description a) (symptoms a)
    (treatment a) (prevention a) v.

(** [line.replace(TAG, '').strip()] *)
Definition tag_text (line tag : str) : str := strip (replace line tag []).

(** [[s.strip() for s in text.split(';') if s.strip()]] *)
Definition items (text : str) : list str :=
  flat_map (fun s => if is_empty (strip s) then [] else [strip s])
    (split semicolon text).

(** The body of the [for] loop, one line at a time. *)
Definition process_line (analysis : Analysis) (line : str) : Analysis :=
  let line := strip line in
  if is_empty line then analysis
  else if startswith line TAG_DISEASE_NAME then
    set_disease_name analysis (tag_text line TAG_DISEASE_NAME)
  else if startswith line TAG_CONFIDENCE then
    set_confidence analysis (tag_text line TAG_CONFIDENCE)
  else if startswith line TAG_DESCRIPTION then
    set_description analysis (tag_text line TAG_DESCRIPTION)
  else if startswith line TAG_SYMPTOMS then
    set_symptoms analysis (items (tag_text line TAG_SYMPTOMS))
  else if startswith line TAG_TREATMENT then
    set_treatment analysis (items (tag_text line TAG_TREATMENT))
  else if startswith line TAG_PREVENTION then
    set_prevention analysis (items (tag_text line TAG_PREVENTION))
  else if startswith line TAG_SEVERITY then
    set_severity analysis (tag_text line TAG_SEVERITY)
  else analysis.

(** [response_text.strip().split('\n')] *)
Definition lines_of (response_text : str) : list str :=
  split newline (strip response_text).

(** The [for] loop over the lines, from the initial dictionary. *)
Definition scan (lines : list str) : Analysis :=
  fold_left process_line lines initial_analysis.

(** The four [if not analysis[...]] statements after the loop. *)
Definition fallback (response_text : str) (lines : list str)
    (analysis : Analysis) : Analysis :=
  let analysis :=
    if is_empty (description analysis) && (0 <? length lines)
    then set_description analysis (slice_to 200 response_text ++ ELLIPSIS)
    else analysis in
  let analysis :=
    if is_empty (symptoms analysis)
    then set_symptoms analysis FALLBACK_SYMPTOMS else analysis in
  let analysis :=
    if is_empty (treatment analysis)
    then set_treatment analysis FALLBACK_TREATMENT else analysis in
  let analysis :=
    if is_empty (prevention analysis)
    then set_prevention analysis FALLBACK_PREVENTION else analysis in
  analysis.

Definition parse_analysis_response (response_text : str) : Analysis :=
  let lines := lines_of response_text in
  fallback response_text lines (scan lines).

(** ** Fields, tags and values

    The loop treats the seven keys uniformly: a line [carries] a key when,
    once stripped, it starts with the key's tag.  The definitions below name
    that view; [process_line] is proved to agree with it. *)

Inductive Field : Type :=
| F_disease_name | F_confidence | F_description
| F_symptoms | F_treatment | F_prevention | F_severity.

Definition tag_of (f : Field) : str :=
  match f with
  | F_disease_name => TAG_DISEASE_NAME
  | F_confidence => TAG_CONFIDENCE
  | F_description => TAG_DESCRIPTION
  | F_symptoms => TAG_SYMPTOMS
  | F_treatment => TAG_TREATMENT
  | F_prevention => TAG_PREVENTION
  | F_severity => TAG_SEVERITY
  end.

(** The values stored under the keys: a [str] or a [list[str]]. *)
Inductive Value : Type :=
| VStr (s : str)
| VList (l : list str).

(** [analysis[key]] *)
Definition get (f : Field) (a : Analysis) : Value :=
  match f with
  | F_disease_name => VStr (disease_name a)
  | F_confidence => VStr (confidence a)
  | F_description => VStr (description a)
  | F_symptoms => VList (symptoms a)
  | F_treatment => VList (treatment a)
  | F_prevention => VList (prevention a)
  | F_severity => VStr (severity a)
  end.

Definition is_list_field (f : Field) : bool :=
  match f with
  | F_symptoms | F_treatment | F_prevention => true
  | _ => false
  end.

(** The fields the statements after the loop never touch. *)
Definition is_plain_scalar (f : Field) : bool :=
  match f with
  | F_disease_name | F_confidence | F_severity => true
  | _ => false
  end.

(** The line, after [strip], starts with the tag of [f]. *)
Definition carries (f : Field) (line : str) : bool :=
  startswith (strip line) (tag_of f).

(** The value the branch of [f] assigns for a stripped line. *)
Definition line_value (f : Field) (line : str) : Value :=
  if is_list_field f then VList (items (tag_text line (tag_of f)))
  else VStr (tag_text line (tag_of f)).

(** What the statements after the loop leave under key [f] when the loop
    left [v] there. *)
Definition after_fallback (f : Field) (response_text : str) (v : Value)
    : Value :=
  match f, v with
  | F_description, VStr [] => VStr (slice_to 200 response_text ++ ELLIPSIS)
  | F_symptoms, VList [] => VList FALLBACK_SYMPTOMS
  | F_treatment, VList [] => VList FALLBACK_TREATMENT
  | F_prevention, VList [] => VList FALLBACK_PREVENTION
  | _, _ => v
  end.

(** The reading of the specification for a tagged line: only the leading
    tag and the surrounding whitespace are removed. *)
Definition after_prefix (line tag : str) : str :=
  strip (skipn (length tag) line).

(** The reading of the specification for a list value: split on [;], trim
    every segment, drop the empty ones, keep the order. *)
Definition split_trim_discard (text : str) : list str :=
  filter (fun s => negb (is_empty s)) (map strip (split semicolon text)).

(** A list item as the extractor promises it: not empty, no whitespace at
    either end. *)
Definition leading_ws (s : str) : bool :=
  match s with
  | [] => false
  | c :: _ => isspace c
  end.

Definition trailing_ws (s : str) : bool := leading_ws (rev s).

Definition clean_item (s : str) : Prop :=
  s <> [] /\ leading_ws s = false /\ trailing_ws s = false.

(** The three lists of a record hold clean items only. *)
Definition lists_clean (a : Analysis) : Prop :=
  Forall clean_item (symptoms a) /\
  Forall clean_item (treatment a) /\
  Forall clean_item (prevention a).

(** ** The [/analyze] endpoint *)

Module Endpoint.

(** The exceptions that can reach the [except Exception] clause.  All of
    them, [HTTPException] included, are subclasses of [Exception]. *)
Inductive exn : Type :=
| HTTPException (status_code : Z) (detail : str)
| AttributeError (msg : str)
| UpstreamError (msg : str).

Record UploadFile : Type := mkUploadFile {
  content_type : option str;
  contents : list N
}.

(** The response model built from the keys of [analysis], once its
    [timestamp] key is set. *)
Definition with_timestamp {R : Type}
    (build : str -> str -> str -> list str -> list str -> list str -> str ->
             str -> R)
    (analysis : Analysis) (timestamp : str) : R :=
  build (disease_name analysis) (confidence analysis) (description analysis)
    (symptoms analysis) (treatment analysis) (prevention analysis)
    (severity analysis) timestamp.

Record AnalysisResponse : Type := mkAnalysisResponse {
  disease_name : str;
  confidence : str;
  description : str;
  symptoms : list str;
  treatment : list str;
  prevention : list str;
  severity : str;
  timestamp : str
}.

Definition result (A : Type) : Type := (exn + A)%type.

Definition bind {A B : Type} (m : result A) (k : A -> result B) : result B :=
  match m with
  | inl e => inl e
  | inr a => k a
  end.

Notation "x <- m ;; k" := (bind m (fun x => k))
  (at level 61, m at next level, right associativity).

(** The status FastAPI answers with: 200 for a returned model, the status
    of a raised [HTTPException], 500 for any other exception. *)
Definition http_status {A : Type} (r : result A) : Z :=
  match r with
  | inr _ => 200%Z
  | inl (HTTPException code _) => code
  | inl _ => 500%Z
  end.

Section Analyze.

(** The collaborators of the endpoint: [str(e)], [await file.read()],
    [base64.b64encode(...).decode('utf-8')], the call to the vision model
    with the fixed prompt (its [message.content] may be [None]), and
    [datetime.now().isoformat()]. *)
Variable exn_str : exn -> str.
Variable file_read : UploadFile -> result (list N).
Variable b64encode : list N -> str.
Variable chat_completion : str -> result (option str).
Variable now_isoformat : str.

(** The body of the [try] block. *)
Definition analyze_body (file : UploadFile) : result AnalysisResponse :=
  match content_type file with
  | None =>
      inl (AttributeError
             (lit "'NoneType' object has no attribute 'startswith'"))
  | Some ct =>
      if negb (startswith ct (lit "image/")) then
        inl (HTTPException 400 (lit "File must be an image (JPEG, PNG, etc.)"))
      else
        image_data <- file_read file ;;
        let base64_image := b64encode image_data in
        content <- chat_completion base64_image ;;
        match content with
        | None =>
            inl (AttributeError
                   (lit "'NoneType' object has no attribute 'strip'"))
        | Some response_text =>
            let analysis := parse_analysis_response response_text in
            inr (with_timestamp mkAnalysisResponse analysis now_isoformat)
        end
  end.

(** [try: ... except Exception as e: raise HTTPException(500, ...)] *)
Definition analyze_leaf (file : UploadFile) : result AnalysisResponse :=
  match analyze_body file with
  | inr r => inr r
  | inl e =>
      inl (HTTPException 500 (lit "Error analyzing image: " ++ exn_str e))
  end.

End Analyze.

End Endpoint.

(** ** Sample responses *)

(** A reply with each of the seven tags once as a line prefix, whose
    description mentions its own tag a second time. *)
Definition repeated_tag_response : str :=
  join newline
    [lit "DISEASE NAME: Leaf Spot";
     lit "CONFIDENCE: High";
     lit "DESCRIPTION: The label DESCRIPTION: is repeated";
     lit "SYMPTOMS: brown spots; yellow halo";
     lit "TREATMENT: remove leaves";
     lit "PREVENTION: avoid wet foliage";
     lit "SEVERITY: Mild"].

(** A reply whose second [SYMPTOMS:] line has only a delimiter as value. *)
Definition emptied_symptoms_response : str :=
  join newline [lit "SYMPTOMS: spots; wilting"; lit "SYMPTOMS: ;"].

(** A reply with two [SEVERITY:] lines. *)
Definition twice_severity_response : str :=
  join newline [lit "SEVERITY: Mild"; lit "SEVERITY: Severe"].

(** A reply of 240 characters without any tag. *)
Definition long_plain_response : str := repeat 97%N 240.

(** An upload that is not an image, and collaborators for it. *)
Definition text_upload : Endpoint.UploadFile :=
  Endpoint.mkUploadFile (Some (lit "text/plain")) [104; 105]%N.

Definition sample_exn_str (e : Endpoint.exn) : str :=
  match e with
  | Endpoint.HTTPException code detail =>
      lit (NilEmpty.string_of_int (Z.to_int code)) ++ lit ": " ++ detail
  | Endpoint.AttributeError msg => msg
  | Endpoint.UpstreamError msg => msg
  end.

(** ** The reply format the prompt asks for

    The prompt of [analyze_leaf] asks the model for seven lines, one per
    tag and in this order, the three lists with their items separated by
    semicolons.  [render] writes a record in that format. *)

Definition space : char := 32%N.

(** [TAG: value] *)
Definition render_scalar (tag value : str) : str := tag ++ space :: value.

(** [ item; item; item] *)
Definition render_items (xs : list str) : str :=
  join semicolon (map (cons space) xs).

(** [TAG: item; item; item] *)
Definition render_list (tag : str) (xs : list str) : str :=
  tag ++ render_items xs.

Definition render (r : Analysis) : str :=
  join newline
    [render_scalar TAG_DISEASE_NAME (disease_name r);
     render_scalar TAG_CONFIDENCE (confidence r);
     render_scalar TAG_DESCRIPTION (description r);
     render_list TAG_SYMPTOMS (symptoms r);
     render_list TAG_TREATMENT (treatment r);
     render_list TAG_PREVENTION (prevention r);
     render_scalar TAG_SEVERITY (severity r)].

(** A value that fits on its line: trimmed and not empty, without a line
    break, and not mentioning its own tag. *)
Definition plain_text (tag v : str) : Prop :=
  clean_item v /\ ~ In newline v /\ occurs tag v = false.

Definition plain_item (x : str) : Prop :=
  clean_item x /\ ~ In semicolon x /\ ~ In newline x.

Definition plain_items (tag : str) (xs : list str) : Prop :=
  xs <> [] /\ Forall plain_item xs /\ occurs tag (render_items xs) = false.

Definition well_formed (r : Analysis) : Prop :=
  plain_text TAG_DISEASE_NAME (disease_name r) /\
  plain_text TAG_CONFIDENCE (confidence r) /\
  plain_text TAG_DESCRIPTION (description r) /\
  plain_items TAG_SYMPTOMS (symptoms r) /\
  plain_items TAG_TREATMENT (treatment r) /\
  plain_items TAG_PREVENTION (prevention r) /\
  plain_text TAG_SEVERITY (severity r).

(** The line carries one of the seven tags. *)
Definition all_fields : list Field :=
  [F_disease_name; F_confidence; F_description; F_symptoms; F_treatment;
   F_prevention; F_severity].

Definition tagged (line : str) : bool :=
  existsb (fun f => carries f line) all_fields.

(** Whitespace only. *)
Definition blank (s : str) : bool := forallb isspace s.

Definition ends_trimmed (s : str) : Prop :=
  leading_ws s = false /\ trailing_ws s = false.

(** A record in the requested format. *)
Definition rust_record : Analysis :=
  {| disease_name := lit "Bean Rust";
     confidence := lit "High";
     description := lit "Orange pustules on the lower leaf surface";
     symptoms := [lit "orange pustules"; lit "yellow halo"];
     treatment := [lit "remove infected leaves"; lit "apply fungicide"];
     prevention := [lit "rotate crops"];
     severity := lit "Moderate" |}.

(** ** The Streamlit front end, [app.py] *)

Module UI.

(** The four badge classes of the style sheet. *)
Definition SEVERITY_CLASSES : list str :=
  [lit "severity-healthy"; lit "severity-mild"; lit "severity-moderate";
   lit "severity-severe"].

Section Severity.

(** [str.lower()]: the Unicode case mapping is not part of the repository. *)
Variable lower : str -> str.

(** [needle in haystack] for strings is [occurs needle haystack]. *)
Definition get_severity_class (severity : str) : str :=
  let severity_lower := lower severity in
  if occurs (lit "healthy") severity_lower then lit "severity-healthy"
  else if occurs (lit "mild") severity_lower then lit "severity-mild"
  else if occurs (lit "moderate") severity_lower then lit "severity-moderate"
  else if occurs (lit "severe") severity_lower then lit "severity-severe"
  else lit "severity-mild".

End Severity.

(** [str.lower()] on the letters A to Z, for sample runs. *)
Definition ascii_lower (s : str) : str :=
  map (fun c => if ((65 <=? c) && (c <=? 90))%N then (c + 32)%N else c) s.

End UI.

(** ** The test script, [test_api.py] *)

Module ApiTest.

(** What a request gives a test: a response with its status code, whose
    handling in the success branch (decoding and printing the JSON body,
    writing the result file) may raise, or an exception of [requests]. *)
Inductive Outcome : Type :=
| Responded (status_code : Z) (handled : bool)
| Raised.

(** [try: ... if response.status_code == 200: ... return True
    else: ... return False  except Exception: return False] *)
Definition test_health_check (o : Outcome) : bool :=
  match o with
  | Responded code handled => if (code =? 200)%Z then handled else false
  | Raised => false
  end.

Definition test_root_endpoint (o : Outcome) : bool :=
  match o with
  | Responded code handled => if (code =? 200)%Z then handled else false
  | Raised => false
  end.

(** [None] as argument: no image path was given or the file is missing;
    the test is then skipped and returns [None]. *)
Definition test_analyze_endpoint (o : option Outcome) : option bool :=
  match o with
  | Some (Responded code handled) =>
      Some (if (code =? 200)%Z then handled else false)
  | Some Raised => Some false
  | None => None
  end.

(** The dictionary [results] of [main]: a value is [True], [False] or
    [None]; insertion order is kept. *)
Definition results (health root : Outcome) (analyze : option Outcome)
    : list (string * option bool) :=
  [("health_check"%string, Some (test_health_check health));
   ("root_endpoint"%string, Some (test_root_endpoint root))]
  ++ match test_analyze_endpoint analyze with
     | Some analyze_result =>
         [("analyze_endpoint"%string, Some analyze_result)]
     | None => []
     end.

Definition is_True (v : option bool) : bool :=
  match v with Some true => true | _ => false end.
Definition is_False (v : option bool) : bool :=
  match v with Some false => true | _ => false end.
Definition is_None (v : option bool) : bool :=
  match v with None => true | _ => false end.

(** [sum(1 for v in results.values() if v is ...)] *)
Definition passed (rs : list (string * option bool)) : nat :=
  length (filter (fun kv => is_True (snd kv)) rs).
Definition failed (rs : list (string * option bool)) : nat :=
  length (filter (fun kv => is_False (snd kv)) rs).
Definition skipped (rs : list (string * option bool)) : nat :=
  length (filter (fun kv => is_None (snd kv)) rs).

(** The label printed for a test:
    ["PASSED" if result else ("FAILED" if result is False else "SKIPPED")]. *)
Inductive Label : Type := PASSED | FAILED | SKIPPED.

Definition label (v : option bool) : Label :=
  match v with
  | Some true => PASSED
  | Some false => FAILED
  | None => SKIPPED
  end.

(** The closing line of the summary, when one is printed. *)
Inductive Closing : Type := AllPassed | SomeFailed.

Definition closing (rs : list (string * option bool)) : option Closing :=
  if (failed rs =? 0) && (0 <? passed rs) then Some AllPassed
  else if 0 <? failed rs then Some SomeFailed
  else None.

(** The value [main] returns: [failed == 0]. *)
Definition main (health root : Outcome) (analyze : option Outcome) : bool :=
  failed (results health root analyze) =? 0.

End ApiTest.

(** ** Facts about the string methods *)

Section StrFacts.

#[local] Arguments N.eqb : simpl never.
#[local] Arguments N.leb : simpl never.

Lemma is_empty_true (A : Type) (l : list A) : is_empty l = true <-> l = [].
Proof. destruct l; simpl; split; congruence. Qed.

Lemma is_empty_false (A : Type) (l : list A) : is_empty l = false <-> l <> [].
Proof. destruct l; simpl; split; congruence. Qed.

Lemma leading_ws_lstrip (s : str) : leading_ws (lstrip s) = false.
Proof.
  induction s as [|c s IH]; simpl; trivial.
  destruct (isspace c) eqn:E; simpl; trivial.
Qed.

Lemma lstrip_app_solid (u v : str) (c : char) :
  isspace c = false -> lstrip (u ++ c :: v) = lstrip u ++ c :: v.
Proof.
  intros Hc. induction u as [|a u IH]; simpl.
  - now rewrite Hc.
  - destruct (isspace a); trivial.
Qed.

Lemma rstrip_cons_solid (c : char) (t : str) :
  isspace c = false -> rstrip (c :: t) = c :: rstrip t.
Proof.
  intros Hc. unfold rstrip. simpl rev at 2.
  rewrite (lstrip_app_solid (rev t) [] c Hc).
  now rewrite rev_app_distr.
Qed.

Lemma trailing_ws_rstrip (s : str) : trailing_ws (rstrip s) = false.
Proof.
  unfold trailing_ws, rstrip. rewrite rev_involutive.
  apply leading_ws_lstrip.
Qed.

Lemma leading_ws_strip (s : str) : leading_ws (strip s) = false.
Proof.
  unfold strip. pose proof (leading_ws_lstrip s) as H.
  destruct (lstrip s) as [|c t]; trivial.
  simpl in H. now rewrite (rstrip_cons_solid c t H).
Qed.

Lemma trailing_ws_strip (s : str) : trailing_ws (strip s) = false.
Proof. apply trailing_ws_rstrip. Qed.

Lemma strip_clean (s : str) : strip s <> [] -> clean_item (strip s).
Proof.
  intros H. repeat split; auto using leading_ws_strip, trailing_ws_strip.
Qed.

Lemma split_not_nil (sep : char) (s : str) : split sep s <> [].
Proof.
  induction s as [|c s IH]; simpl; try discriminate.
  destruct (c =? sep)%N; try discriminate.
  destruct (split sep s); discriminate.
Qed.

Lemma split_length_pos (sep : char) (s : str) :
  (0 <? length (split sep s)) = true.
Proof.
  pose proof (split_not_nil sep s) as H.
  destruct (split sep s); [congruence | reflexivity].
Qed.

Lemma join_cons (sep : char) (w x : str) (ws : list str) :
  join sep (w :: x :: ws) = w ++ sep :: join sep (x :: ws).
Proof. reflexivity. Qed.

Lemma join_push (sep c : char) (x : str) (xs : list str) :
  join sep ((c :: x) :: xs) = c :: join sep (x :: xs).
Proof. destruct xs; reflexivity. Qed.

Lemma join_split (sep : char) (s : str) : join sep (split sep s) = s.
Proof.
  induction s as [|c s IH]; trivial.
  pose proof (split_not_nil sep s) as Hne.
  change (split sep (c :: s))
    with (if (c =? sep)%N then [] :: split sep s
          else match split sep s with
               | [] => [[c]]
               | w :: ws => (c :: w) :: ws
               end).
  destruct (split sep s) as [|x xs]; [congruence|].
  destruct (c =? sep)%N eqn:E.
  - apply N.eqb_eq in E. subst c. rewrite join_cons, IH. reflexivity.
  - rewrite join_push, IH. reflexivity.
Qed.

Lemma split_no_sep (sep : char) (s : str) :
  Forall (fun w => ~ In sep w) (split sep s).
Proof.
  induction s as [|c s IH]; simpl.
  - constructor; auto.
  - destruct (c =? sep)%N eqn:E.
    + constructor; auto.
    + apply N.eqb_neq in E.
      destruct (split sep s) as [|x xs]; inversion IH; subst;
        constructor; auto; simpl; intros [H|H]; auto; congruence.
Qed.

Lemma startswith_nil_l (p : str) : startswith [] p = is_empty p.
Proof. destruct p; reflexivity. Qed.

Lemma startswith_app (p r : str) : startswith (p ++ r) p = true.
Proof.
  induction p as [|c p IH]; simpl; trivial.
  now rewrite N.eqb_refl.
Qed.

Lemma startswith_decompose (s p : str) :
  startswith s p = true -> s = p ++ skipn (length p) s.
Proof.
  revert s. induction p as [|c p IH]; intros s H; simpl in *; trivial.
  destruct s as [|a s]; try discriminate.
  apply andb_prop in H. destruct H as [Hc Hs].
  apply N.eqb_eq in Hc. subst a. simpl. f_equal. now apply IH.
Qed.

(** Two prefixes of one string: one is a prefix of the other. *)
Lemma startswith_comparable (s p q : str) :
  startswith s p = true -> startswith s q = true ->
  startswith p q = true \/ startswith q p = true.
Proof.
  revert s q. induction p as [|c p IH]; intros s q Hp Hq.
  - right. now destruct q.
  - destruct q as [|d q]; [now left|].
    destruct s as [|a s]; simpl in Hp, Hq; try discriminate.
    apply andb_prop in Hp. destruct Hp as [Hc Hp].
    apply andb_prop in Hq. destruct Hq as [Hd Hq].
    apply N.eqb_eq in Hc, Hd. subst c d. simpl. rewrite N.eqb_refl. simpl.
    destruct (IH s q Hp Hq) as [H|H]; auto.
Qed.

Lemma replace_from_skip (old new p r : str) :
  replace_from old new (length p) (p ++ r) = replace_from old new 0 r.
Proof.
  induction p as [|c p IH]; simpl; trivial.
Qed.

Lemma replace_from_absent (old new s : str) :
  occurs old s = false -> replace_from old new 0 s = s.
Proof.
  induction s as [|c s IH]; intros H; trivial.
  simpl in H. apply orb_false_iff in H. destruct H as [H1 H2].
  change (replace_from old new 0 (c :: s))
    with (if startswith (c :: s) old
          then new ++ replace_from old new (length old - 1) s
          else c :: replace_from old new 0 s).
  rewrite H1. f_equal. auto.
Qed.

(** Removing a tag from a line that starts with it: the leading occurrence
    goes, and so does every later occurrence in the rest of the line. *)
Lemma replace_leading (old r : str) :
  old <> [] -> replace (old ++ r) old [] = replace r old [].
Proof.
  intros Hne. destruct old as [|c old]; [congruence|].
  unfold replace.
  change (replace_from (c :: old) [] 0 ((c :: old) ++ r))
    with (if startswith ((c :: old) ++ r) (c :: old)
          then [] ++ replace_from (c :: old) [] (length (c :: old) - 1)
                       (old ++ r)
          else c :: replace_from (c :: old) [] 0 (old ++ r)).
  rewrite startswith_app.
  replace (length (c :: old) - 1) with (length old) by (simpl; lia).
  apply replace_from_skip.
Qed.

Lemma replace_absent (s old new : str) :
  old <> [] -> occurs old s = false -> replace s old new = s.
Proof.
  intros Hne H. destruct old; [congruence|].
  now apply replace_from_absent.
Qed.

(** When the tag does not occur again, the extracted text is the rest of
    the line, trimmed. *)
Lemma tag_text_verbatim (line tag : str) :
  tag <> [] ->
  startswith line tag = true ->
  occurs tag (skipn (length tag) line) = false ->
  tag_text line tag = after_prefix line tag.
Proof.
  intros Hne Hp Hocc. unfold tag_text, after_prefix.
  rewrite (startswith_decompose _ _ Hp) at 1.
  rewrite replace_leading by assumption.
  now rewrite replace_absent.
Qed.

End StrFacts.

(** ** Facts about the loop and the fallback statements *)

Section ExtractorFacts.

Lemma tag_nonempty (f : Field) : tag_of f <> [].
Proof. destruct f; discriminate. Qed.

(** No tag is a prefix of another one, so the order of the [elif] chain
    never decides which branch runs. *)
Lemma tags_incomparable (f g : Field) :
  startswith (tag_of f) (tag_of g) = true -> f = g.
Proof. destruct f, g; vm_compute; congruence. Qed.

Lemma carries_unique (f g : Field) (line : str) :
  carries f line = true -> carries g line = true -> f = g.
Proof.
  unfold carries. intros Hf Hg.
  destruct (startswith_comparable _ _ _ Hf Hg) as [H|H];
    apply tags_incomparable in H; congruence.
Qed.

Lemma carries_not_blank (f : Field) (line : str) :
  carries f line = true -> is_empty (strip line) = false.
Proof.
  unfold carries. destruct (strip line); trivial.
  rewrite startswith_nil_l, is_empty_true. intros H.
  now apply tag_nonempty in H.
Qed.

Ltac chain_cases :=
  repeat match goal with
         | |- context [if startswith ?l ?t then _ else _] =>
             destruct (startswith l t) eqn:?
         end.

Lemma process_line_miss (f : Field) (a : Analysis) (line : str) :
  carries f line = false -> get f (process_line a line) = get f a.
Proof.
  unfold carries, process_line. intros H.
  destruct (is_empty (strip line)); trivial.
  destruct f; cbn [tag_of] in H; chain_cases;
    try reflexivity; congruence.
Qed.

Lemma process_line_hit (f : Field) (a : Analysis) (line : str) :
  carries f line = true ->
  get f (process_line a line) = line_value f (strip line).
Proof.
  intros H.
  assert (U : forall g, carries g line = true -> g = f)
    by (intros g Hg; exact (carries_unique g f line Hg H)).
  pose proof (carries_not_blank f line H) as Hne.
  unfold process_line. rewrite Hne. unfold carries in *.
  destruct f; cbn [tag_of] in H; chain_cases; try reflexivity;
    try congruence;
    match goal with
    | E : startswith _ TAG_DISEASE_NAME = true |- _ =>
        discriminate (U F_disease_name E)
    | E : startswith _ TAG_CONFIDENCE = true |- _ =>
        discriminate (U F_confidence E)
    | E : startswith _ TAG_DESCRIPTION = true |- _ =>
        discriminate (U F_description E)
    | E : startswith _ TAG_SYMPTOMS = true |- _ =>
        discriminate (U F_symptoms E)
    | E : startswith _ TAG_TREATMENT = true |- _ =>
        discriminate (U F_treatment E)
    | E : startswith _ TAG_PREVENTION = true |- _ =>
        discriminate (U F_prevention E)
    end.
Qed.

Lemma loop_miss (f : Field) (ls : list str) (a : Analysis) :
  (forall y, In y ls -> carries f y = false) ->
  get f (fold_left process_line ls a) = get f a.
Proof.
  revert a. induction ls as [|x ls IH]; intros a H; trivial.
  simpl. rewrite IH by (intros y Hy; apply H; now right).
  apply process_line_miss, H. now left.
Qed.

Lemma loop_last (f : Field) (pre post : list str) (x : str) (a : Analysis) :
  carries f x = true ->
  (forall y, In y post -> carries f y = false) ->
  get f (fold_left process_line (pre ++ x :: post) a)
  = line_value f (strip x).
Proof.
  intros Hx Hpost. rewrite fold_left_app. simpl.
  rewrite loop_miss by assumption.
  now apply process_line_hit.
Qed.

(** Whatever the loop leaves under a key is the value it started with or
    the value of some line carrying the key's tag. *)
Lemma loop_origin (f : Field) (ls : list str) (a : Analysis) :
  get f (fold_left process_line ls a) = get f a \/
  exists x, In x ls /\ carries f x = true /\
            get f (fold_left process_line ls a) = line_value f (strip x).
Proof.
  revert a. induction ls as [|x ls IH]; intros a; [now left|].
  simpl. destruct (IH (process_line a x)) as [H|[y [Hy [Hc Hv]]]].
  - rewrite H. destruct (carries f x) eqn:E.
    + right. exists x. repeat split; auto. now apply process_line_hit.
    + left. now apply process_line_miss.
  - right. exists y. auto.
Qed.

Lemma fallback_get (f : Field) (s : str) (ls : list str) (a : Analysis) :
  (0 <? length ls) = true ->
  get f (fallback s ls a) = after_fallback f s (get f a).
Proof.
  intros H. unfold fallback. rewrite H.
  destruct a as [dn c d sy t p sv].
  destruct d, sy, t, p; destruct f; reflexivity.
Qed.

Lemma lines_of_pos (s : str) : (0 <? length (lines_of s)) = true.
Proof. apply split_length_pos. Qed.

Lemma parse_get (f : Field) (s : str) :
  get f (parse_analysis_response s)
  = after_fallback f s (get f (scan (lines_of s))).
Proof. apply fallback_get, lines_of_pos. Qed.

(** The description after the fallback statements is never empty. *)
Lemma description_filled (s : str) :
  description (parse_analysis_response s) <> [].
Proof.
  pose proof (parse_get F_description s) as H. cbn [get] in H.
  destruct (description (scan (lines_of s))); cbn [after_fallback] in H;
    injection H as H; rewrite H; try discriminate.
  unfold ELLIPSIS. intros E. apply app_eq_nil in E.
  destruct E; discriminate.
Qed.

(** No line assigns a non-empty description: the loop leaves it empty. *)
Lemma loop_description_empty (ls : list str) (a : Analysis) :
  description a = [] ->
  (forall x, In x ls -> carries F_description x = true ->
             tag_text (strip x) TAG_DESCRIPTION = []) ->
  description (fold_left process_line ls a) = [].
Proof.
  intros Ha H.
  destruct (loop_origin F_description ls a) as [E|[x [Hx [Hc E]]]];
    cbn [get] in E; [congruence|].
  unfold line_value in E. cbn [is_list_field tag_of] in E.
  rewrite (H x Hx Hc) in E. congruence.
Qed.

Lemma description_truncated (s : str) :
  (forall x, In x (lines_of s) -> carries F_description x = true ->
             tag_text (strip x) TAG_DESCRIPTION = []) ->
  description (parse_analysis_response s) = slice_to 200 s ++ ELLIPSIS.
Proof.
  intros H.
  pose proof (parse_get F_description s) as G. cbn [get] in G.
  unfold scan in G.
  rewrite (loop_description_empty (lines_of s) initial_analysis) in G
    by (trivial || assumption).
  cbn [after_fallback] in G. congruence.
Qed.

Lemma items_spec (text : str) : items text = split_trim_discard text.
Proof.
  unfold items, split_trim_discard.
  induction (split semicolon text) as [|w ws IH]; trivial.
  simpl. rewrite IH. now destruct (is_empty (strip w)).
Qed.

Lemma items_clean (text : str) : Forall clean_item (items text).
Proof.
  unfold items.
  induction (split semicolon text) as [|w ws IH]; simpl; [constructor|].
  destruct (is_empty (strip w)) eqn:E; simpl; trivial.
  constructor; trivial. apply strip_clean. now apply is_empty_false.
Qed.

Lemma process_line_clean (a : Analysis) (line : str) :
  lists_clean a -> lists_clean (process_line a line).
Proof.
  unfold lists_clean, process_line. intros [H1 [H2 H3]].
  destruct (is_empty (strip line)); auto.
  chain_cases; simpl; auto using items_clean.
Qed.

Lemma loop_clean (ls : list str) (a : Analysis) :
  lists_clean a -> lists_clean (fold_left process_line ls a).
Proof.
  revert a. induction ls as [|x ls IH]; intros a H; trivial.
  simpl. now apply IH, process_line_clean.
Qed.

Lemma fallback_lists_clean :
  Forall clean_item FALLBACK_SYMPTOMS /\
  Forall clean_item FALLBACK_TREATMENT /\
  Forall clean_item FALLBACK_PREVENTION.
Proof.
  repeat split; repeat constructor; try discriminate; reflexivity.
Qed.

Lemma fallback_clean (s : str) (ls : list str) (a : Analysis) :
  lists_clean a -> lists_clean (fallback s ls a).
Proof.
  destruct fallback_lists_clean as [F1 [F2 F3]].
  unfold lists_clean, fallback. intros [H1 [H2 H3]].
  destruct a as [dn c d sy t p sv]; simpl in *.
  destruct (is_empty d && (0 <? length ls));
    destruct sy, t, p; simpl; auto.
Qed.

Lemma fallback_lists_filled (s : str) (ls : list str) (a : Analysis) :
  symptoms (fallback s ls a) <> [] /\
  treatment (fallback s ls a) <> [] /\
  prevention (fallback s ls a) <> [].
Proof.
  unfold fallback. destruct a as [dn c d sy t p sv]; simpl.
  destruct (is_empty d && (0 <? length ls));
    destruct sy, t, p; simpl; repeat split; discriminate.
Qed.

Lemma extractor_lists_filled (s : str) :
  symptoms (parse_analysis_response s) <> [] /\
  treatment (parse_analysis_response s) <> [] /\
  prevention (parse_analysis_response s) <> [].
Proof. apply fallback_lists_filled. Qed.

Lemma extractor_lists_clean (s : str) :
  lists_clean (parse_analysis_response s).
Proof.
  apply fallback_clean. unfold scan. apply loop_clean.
  repeat split; constructor.
Qed.

End ExtractorFacts.

(** ** Properties of the specification *)

(** C1: for every input string the extractor returns a record of the seven
    fields (it is a total function: every [str] method it calls is defined
    on every string), and after the fallback statements the lists
    [symptoms], [treatment] and [prevention] are not empty. *)
Theorem extractor_total_lists_filled (response_text : str) :
  exists a : Analysis,
    parse_analysis_response response_text = a /\
    symptoms a <> [] /\ treatment a <> [] /\ prevention a <> [].
Proof.
  eexists. split; [reflexivity|].
  apply fallback_lists_filled.
Qed.

(** C2, on the code: for the empty string the record holds the defaults
    and the three fallback lists, but its description is the ellipsis
    marker and not the empty string: [len(lines) > 0] holds for the one
    empty line that splitting the empty text gives. *)
Theorem empty_input_record :
  lines_of [] = [[]] /\
  parse_analysis_response [] =
    {| disease_name := lit "Unknown";
       confidence := lit "Medium";
       description := lit "...";
       symptoms := [lit "Analysis completed - check description for details"];
       treatment :=
         [lit "Consult with agricultural expert for specific treatment"];
       prevention := [lit "Maintain proper plant hygiene and monitoring"];
       severity := lit "Unknown" |} /\
  description (parse_analysis_response []) <> [].
Proof. repeat split; discriminate. Qed.

(** C3, on the code: with each of the seven tags on exactly one line, a
    description that mentions [DESCRIPTION:] again loses that second
    occurrence as well, because the tag is removed with [replace]; the
    text after the leading tag, trimmed, is something else. *)
Theorem inner_tag_removed :
  (forall f,
     length (filter (carries f) (lines_of repeated_tag_response)) = 1) /\
  description (parse_analysis_response repeated_tag_response)
  = lit "The label  is repeated" /\
  after_prefix (lit "DESCRIPTION: The label DESCRIPTION: is repeated")
    TAG_DESCRIPTION
  = lit "The label DESCRIPTION: is repeated" /\
  disease_name (parse_analysis_response repeated_tag_response)
  = lit "Leaf Spot".
Proof.
  split; [|repeat split].
  intros f. destruct f; reflexivity.
Qed.

(** C4, as the code has it: the description of the returned record is never
    empty; [disease_name], [confidence] and [severity] keep their defaults
    when no line carries their tag; and, in a reply where no line carrying
    the tag mentions it a second time, one of them is empty only when some
    line carrying its tag has nothing but whitespace after the tag. *)
Theorem plain_scalar_default_or_line_value (s : str) (f : Field) :
  is_plain_scalar f = true ->
  description (parse_analysis_response s) <> [] /\
  ((forall x, In x (lines_of s) -> carries f x = false) ->
   get f (parse_analysis_response s) = get f initial_analysis) /\
  ((forall x, In x (lines_of s) -> carries f x = true ->
      occurs (tag_of f) (skipn (length (tag_of f)) (strip x)) = false) ->
   get f (parse_analysis_response s) = VStr [] ->
   exists x, In x (lines_of s) /\ carries f x = true /\
             after_prefix (strip x) (tag_of f) = []).
Proof.
  intros Hf. split; [apply description_filled|].
  assert (G : get f (parse_analysis_response s) = get f (scan (lines_of s))).
  { rewrite parse_get. destruct f; try discriminate; reflexivity. }
  rewrite G. unfold scan. split.
  - intros H. now apply loop_miss.
  - intros Once E.
    destruct (loop_origin f (lines_of s) initial_analysis)
      as [H|[x [Hx [Hc H]]]].
    + rewrite E in H. destruct f; discriminate.
    + exists x. repeat split; trivial.
      rewrite <- tag_text_verbatim;
        [|apply tag_nonempty|exact Hc|now apply Once].
      rewrite E in H. unfold line_value in H.
      destruct f; try discriminate; cbn [is_list_field] in H; congruence.
Qed.

(** C4 fails as stated: a line that is exactly the tag leaves the disease
    name empty. *)
Lemma bare_tag_empties_disease_name :
  disease_name (parse_analysis_response (lit "DISEASE NAME:")) = [].
Proof. reflexivity. Qed.

Lemma plain_scalar_default_or_line_value_witness :
  get F_disease_name (parse_analysis_response (lit "no tag in this reply"))
  = VStr (lit "Unknown") /\
  exists x, In x (lines_of (lit "CONFIDENCE:  ")) /\
            carries F_confidence x = true /\
            after_prefix (strip x) (tag_of F_confidence) = [].
Proof.
  split.
  - destruct (plain_scalar_default_or_line_value
                (lit "no tag in this reply") F_disease_name eq_refl)
      as [_ [H _]].
    rewrite H; [reflexivity|].
    intros x [<-|[]]. reflexivity.
  - destruct (plain_scalar_default_or_line_value
                (lit "CONFIDENCE:  ") F_confidence eq_refl)
      as [_ [_ H]].
    apply H; [|reflexivity].
    intros x [<-|[]] _. reflexivity.
Defined.

(** C5, as the code has it: when several lines carry a tag, the loop leaves
    the value of the last of them in the record, for each of the seven
    fields.  The returned record holds that value for [disease_name],
    [confidence] and [severity], and for the other four fields whenever it
    is not empty; an empty one is replaced by the fallback. *)
Theorem last_tagged_line_wins
    (s : str) (f : Field) (pre post : list str) (x : str) :
  lines_of s = pre ++ x :: post ->
  carries f x = true ->
  (forall y, In y post -> carries f y = false) ->
  get f (scan (lines_of s)) = line_value f (strip x) /\
  get f (parse_analysis_response s)
  = after_fallback f s (line_value f (strip x)) /\
  (is_plain_scalar f = true ->
   get f (parse_analysis_response s) = line_value f (strip x)) /\
  (line_value f (strip x) <> VStr [] ->
   line_value f (strip x) <> VList [] ->
   get f (parse_analysis_response s) = line_value f (strip x)).
Proof.
  intros Hl Hx Hpost.
  assert (L : get f (scan (lines_of s)) = line_value f (strip x)).
  { unfold scan. rewrite Hl. now apply loop_last. }
  rewrite parse_get, L. repeat split.
  - intros Hf. unfold line_value.
    destruct f; try discriminate; reflexivity.
  - intros H1 H2. unfold line_value in *.
    destruct f; cbn [is_list_field] in *;
      destruct (tag_text (strip x) _) eqn:E; try reflexivity; try congruence;
      cbn [after_fallback];
      match goal with
      | |- context [items ?t] => destruct (items t); congruence
      end.
Qed.

(** C5 fails as stated: the last [SYMPTOMS:] line has the empty list as its
    value, and the returned record holds the fallback list instead. *)
Lemma last_empty_value_not_returned :
  lines_of emptied_symptoms_response
  = [lit "SYMPTOMS: spots; wilting"] ++ lit "SYMPTOMS: ;" :: [] /\
  carries F_symptoms (lit "SYMPTOMS: ;") = true /\
  line_value F_symptoms (strip (lit "SYMPTOMS: ;")) = VList [] /\
  get F_symptoms (parse_analysis_response emptied_symptoms_response)
  <> line_value F_symptoms (strip (lit "SYMPTOMS: ;")).
Proof. repeat split; discriminate. Qed.

Lemma last_tagged_line_wins_witness :
  lines_of twice_severity_response
  = [lit "SEVERITY: Mild"] ++ lit "SEVERITY: Severe" :: [] /\
  severity (parse_analysis_response twice_severity_response) = lit "Severe".
Proof.
  split; [reflexivity|].
  destruct (last_tagged_line_wins twice_severity_response F_severity
              [lit "SEVERITY: Mild"] [] (lit "SEVERITY: Severe"))
    as [_ [_ [H _]]].
  - reflexivity.
  - reflexivity.
  - intros y [].
  - exact (f_equal (fun v => match v with VStr t => t | VList _ => [] end)
             (H eq_refl)).
Defined.

(** C6, on the code: the list branches remove the tag with [replace] too,
    so a list line that mentions its tag again loses that second mention:
    [SYMPTOMS: a; SYMPTOMS: b] stores the items [a] and [b], where the
    segments of the text after the leading tag are [a] and [SYMPTOMS: b].
    The two replies the claim names are read as it says. *)
Theorem list_inner_tag_removed :
  carries F_symptoms (lit "SYMPTOMS: a; SYMPTOMS: b") = true /\
  symptoms (parse_analysis_response (lit "SYMPTOMS: a; SYMPTOMS: b"))
  = [lit "a"; lit "b"] /\
  split_trim_discard
    (after_prefix (lit "SYMPTOMS: a; SYMPTOMS: b") TAG_SYMPTOMS)
  = [lit "a"; lit "SYMPTOMS: b"] /\
  symptoms (parse_analysis_response
              (lit "SYMPTOMS: yellow spots; wilting;  ; curling"))
  = [lit "yellow spots"; lit "wilting"; lit "curling"] /\
  symptoms (scan (lines_of (lit "SYMPTOMS: ;;;"))) = [] /\
  symptoms (parse_analysis_response (lit "SYMPTOMS: ;;;"))
  = [lit "Analysis completed - check description for details"].
Proof. repeat split. Qed.

(** C7: for an input of more than 200 characters in which no line assigns
    a non-empty description, the returned description is the first 200
    characters of the raw text followed by [...]. *)
Theorem long_input_description_truncated (s : str) :
  200 < length s ->
  (forall x, In x (lines_of s) -> carries F_description x = true ->
             tag_text (strip x) TAG_DESCRIPTION = []) ->
  description (parse_analysis_response s) = firstn 200 s ++ lit "..." /\
  length (description (parse_analysis_response s)) = 203.
Proof.
  intros Hlen H.
  pose proof (description_truncated s H) as D. split; [exact D|].
  rewrite D. unfold slice_to. rewrite length_app, length_firstn.
  change (length ELLIPSIS) with 3. lia.
Qed.

Lemma long_input_description_truncated_witness :
  200 < length long_plain_response /\
  description (parse_analysis_response long_plain_response)
  = repeat 97%N 200 ++ lit "...".
Proof.
  assert (L : 200 < length long_plain_response)
    by (unfold long_plain_response; rewrite repeat_length; lia).
  split; [exact L|].
  destruct (long_input_description_truncated long_plain_response L)
    as [H _].
  - intros x [<-|[]]. vm_compute. discriminate.
  - rewrite H. reflexivity.
Defined.

(** C8: an upload whose content type does not start with [image/] is
    answered with status 500 and a detail that starts with
    [Error analyzing image:]: the [HTTPException] of status 400 raised in
    the [try] block is caught by [except Exception] and wrapped. *)
Theorem non_image_upload_answered_500
    (exn_str : Endpoint.exn -> str)
    (file_read : Endpoint.UploadFile -> Endpoint.result (list N))
    (b64encode : list N -> str)
    (chat_completion : str -> Endpoint.result (option str))
    (now_isoformat : str)
    (file : Endpoint.UploadFile) (ct : str) :
  Endpoint.content_type file = Some ct ->
  startswith ct (lit "image/") = false ->
  let r := Endpoint.analyze_leaf exn_str file_read b64encode chat_completion
             now_isoformat file in
  Endpoint.analyze_body file_read b64encode chat_completion now_isoformat
    file
  = inl (Endpoint.HTTPException 400
           (lit "File must be an image (JPEG, PNG, etc.)")) /\
  Endpoint.http_status r = 500%Z /\
  Endpoint.http_status r <> 400%Z /\
  exists detail,
    r = inl (Endpoint.HTTPException 500 detail) /\
    startswith detail (lit "Error analyzing image:") = true.
Proof.
  intros Hct Hp r.
  assert (B : Endpoint.analyze_body file_read b64encode chat_completion
                now_isoformat file
              = inl (Endpoint.HTTPException 400
                       (lit "File must be an image (JPEG, PNG, etc.)"))).
  { unfold Endpoint.analyze_body. rewrite Hct, Hp. reflexivity. }
  subst r. unfold Endpoint.analyze_leaf. rewrite B.
  repeat split; try discriminate.
  eexists. split; reflexivity.
Qed.

Lemma non_image_upload_answered_500_witness :
  startswith (lit "text/plain") (lit "image/") = false /\
  Endpoint.http_status
    (Endpoint.analyze_leaf sample_exn_str
       (fun f => inr (Endpoint.contents f)) (fun _ => lit "aGk=")
       (fun _ => inr (Some (lit "SEVERITY: Mild")))
       (lit "2024-01-01T00:00:00") text_upload)
  = 500%Z.
Proof.
  split; [reflexivity|].
  exact (proj1 (proj2
           (non_image_upload_answered_500 sample_exn_str
              (fun f => inr (Endpoint.contents f)) (fun _ => lit "aGk=")
              (fun _ => inr (Some (lit "SEVERITY: Mild")))
              (lit "2024-01-01T00:00:00") text_upload (lit "text/plain")
              eq_refl eq_refl))).
Defined.

(** C9: [len(lines) > 0] holds for every input, since splitting never
    gives the empty list; so whenever no line assigns a non-empty
    description, the empty input included, the returned description is
    [response_text[:200] + "..."], and it is never the empty string. *)
Theorem description_guard_always_true (s : str) :
  lines_of s <> [] /\
  (0 <? length (lines_of s)) = true /\
  ((forall x, In x (lines_of s) -> carries F_description x = true ->
              tag_text (strip x) TAG_DESCRIPTION = []) ->
   description (parse_analysis_response s) = slice_to 200 s ++ lit "...") /\
  description (parse_analysis_response s) <> [] /\
  description (parse_analysis_response []) = lit "...".
Proof.
  repeat split.
  - apply split_not_nil.
  - apply lines_of_pos.
  - apply description_truncated.
  - apply description_filled.
Qed.

Lemma description_guard_always_true_witness :
  description (parse_analysis_response (lit "DESCRIPTION:"))
  = lit "DESCRIPTION:...".
Proof.
  destruct (description_guard_always_true (lit "DESCRIPTION:"))
    as [_ [_ [H _]]].
  rewrite H; [reflexivity|].
  intros x [<-|[]] _. reflexivity.
Defined.

(** C10: every element of the returned [symptoms], [treatment] and
    [prevention] lists is a non-empty string without whitespace at its
    start or at its end, whether it comes from a tagged line or from a
    fallback list. *)
Theorem returned_items_clean (s : str) :
  Forall clean_item (symptoms (parse_analysis_response s)) /\
  Forall clean_item (treatment (parse_analysis_response s)) /\
  Forall clean_item (prevention (parse_analysis_response s)).
Proof.
  apply fallback_clean. unfold scan. apply loop_clean.
  repeat split; constructor.
Qed.

(** ** Further facts about the string methods *)

Section MoreStrFacts.

#[local] Arguments N.eqb : simpl never.
#[local] Arguments N.leb : simpl never.

Lemma lstrip_solid (s : str) : leading_ws s = false -> lstrip s = s.
Proof.
  destruct s as [|c s]; simpl; trivial. intros H. now rewrite H.
Qed.

Lemma strip_trimmed (s : str) : ends_trimmed s -> strip s = s.
Proof.
  intros [Hl Ht]. unfold strip, rstrip. rewrite (lstrip_solid s Hl).
  unfold trailing_ws in Ht. rewrite (lstrip_solid (rev s) Ht).
  apply rev_involutive.
Qed.

Lemma strip_idempotent (s : str) : strip (strip s) = strip s.
Proof.
  apply strip_trimmed. split;
    [apply leading_ws_strip | apply trailing_ws_strip].
Qed.

Lemma lstrip_blank_app (p s : str) :
  blank p = true -> lstrip (p ++ s) = lstrip s.
Proof.
  induction p as [|c p IH]; simpl; trivial.
  intros H. apply andb_prop in H. destruct H as [Hc Hp].
  rewrite Hc. auto.
Qed.

Lemma lstrip_blank (p : str) : blank p = true -> lstrip p = [].
Proof.
  intros H. rewrite <- (app_nil_r p). now rewrite lstrip_blank_app.
Qed.

Lemma blank_rev (q : str) : blank q = true -> blank (rev q) = true.
Proof.
  unfold blank. rewrite !forallb_forall. intros H c Hc.
  apply H. now apply in_rev.
Qed.

Lemma rstrip_app_blank (s q : str) :
  blank q = true -> rstrip (s ++ q) = rstrip s.
Proof.
  intros H. unfold rstrip. rewrite rev_app_distr.
  now rewrite lstrip_blank_app by now apply blank_rev.
Qed.

Lemma lstrip_app (s q : str) :
  lstrip s <> [] -> lstrip (s ++ q) = lstrip s ++ q.
Proof.
  induction s as [|c s IH]; simpl; [congruence|].
  destruct (isspace c); auto.
Qed.

Lemma lstrip_nil_blank (s : str) : lstrip s = [] -> blank s = true.
Proof.
  induction s as [|c s IH]; simpl; trivial.
  destruct (isspace c); [auto | discriminate].
Qed.

(** Whitespace around a string does not change what [strip] gives. *)
Lemma strip_padding (p s q : str) :
  blank p = true -> blank q = true -> strip (p ++ s ++ q) = strip s.
Proof.
  intros Hp Hq. unfold strip. rewrite lstrip_blank_app by assumption.
  destruct (lstrip s) as [|c t] eqn:E.
  - rewrite lstrip_blank; trivial.
    unfold blank. rewrite forallb_app.
    apply lstrip_nil_blank in E. unfold blank in E, Hq.
    now rewrite E, Hq.
  - rewrite lstrip_app by congruence. rewrite E.
    now apply rstrip_app_blank.
Qed.

Lemma trailing_ws_app (p r : str) :
  r <> [] -> trailing_ws (p ++ r) = trailing_ws r.
Proof.
  intros H. unfold trailing_ws. rewrite rev_app_distr.
  destruct (rev r) as [|c t] eqn:E; trivial.
  apply (f_equal (@rev char)) in E. rewrite rev_involutive in E.
  now subst r.
Qed.

Lemma leading_ws_app (p r : str) :
  p <> [] -> leading_ws (p ++ r) = leading_ws p.
Proof. destruct p; [congruence | reflexivity]. Qed.

Lemma skipn_prefix (p r : str) : skipn (length p) (p ++ r) = r.
Proof. induction p; simpl; trivial. Qed.

(** Splitting what was joined gives the parts back, when there is at least
    one part and no part holds the separator. *)
Lemma split_solid (sep : char) (w : str) :
  ~ In sep w -> split sep w = [w].
Proof.
  induction w as [|c w IH]; intros H; trivial.
  change (split sep (c :: w))
    with (if (c =? sep)%N then [] :: split sep w
          else match split sep w with
               | [] => [[c]]
               | x :: xs => (c :: x) :: xs
               end).
  destruct (c =? sep)%N eqn:E.
  - apply N.eqb_eq in E. subst. exfalso. apply H. now left.
  - rewrite IH; trivial. intros Hin. apply H. now right.
Qed.

Lemma split_app_sep (sep : char) (w rest : str) :
  ~ In sep w -> split sep (w ++ sep :: rest) = w :: split sep rest.
Proof.
  induction w as [|c w IH]; intros H.
  - simpl. now rewrite N.eqb_refl.
  - change (split sep ((c :: w) ++ sep :: rest))
      with (if (c =? sep)%N then [] :: split sep (w ++ sep :: rest)
            else match split sep (w ++ sep :: rest) with
                 | [] => [[c]]
                 | x :: xs => (c :: x) :: xs
                 end).
    destruct (c =? sep)%N eqn:E.
    + apply N.eqb_eq in E. subst. exfalso. apply H. now left.
    + rewrite IH; trivial. intros Hin. apply H. now right.
Qed.

Lemma split_join (sep : char) (ys : list str) :
  ys <> [] -> Forall (fun y => ~ In sep y) ys ->
  split sep (join sep ys) = ys.
Proof.
  induction ys as [|y ys IH]; intros Hne H; [congruence|].
  inversion H as [|? ? Hy Hys]; subst.
  destruct ys as [|z zs].
  - simpl. now apply split_solid.
  - rewrite join_cons, split_app_sep by assumption.
    f_equal. apply IH; [discriminate | assumption].
Qed.

Lemma in_join (sep c : char) (ys : list str) :
  In c (join sep ys) -> c = sep \/ exists y, In y ys /\ In c y.
Proof.
  induction ys as [|y ys IH]; intros H; [contradiction|].
  destruct ys as [|z zs].
  - right. exists y. split; [now left | exact H].
  - rewrite join_cons in H. apply in_app_or in H.
    destruct H as [H|[H|H]].
    + right. exists y. split; [now left | exact H].
    + now left.
    + destruct (IH H) as [E|[w [Hw Hc]]]; [now left|].
      right. exists w. split; [now right | exact Hc].
Qed.

Lemma join_not_nil (sep : char) (y : str) (ys : list str) :
  y <> [] -> join sep (y :: ys) <> [].
Proof.
  intros Hy. destruct ys; simpl; trivial.
  destruct y; [congruence | discriminate].
Qed.

End MoreStrFacts.

(** ** Further facts about the loop *)

Section MoreExtractorFacts.

Lemma get_ext (a b : Analysis) : (forall f, get f a = get f b) -> a = b.
Proof.
  intros H. destruct a, b.
  pose proof (H F_disease_name) as H1. pose proof (H F_confidence) as H2.
  pose proof (H F_description) as H3. pose proof (H F_symptoms) as H4.
  pose proof (H F_treatment) as H5. pose proof (H F_prevention) as H6.
  pose proof (H F_severity) as H7. simpl in *. congruence.
Qed.

Lemma tagged_false (line : str) :
  tagged line = false -> forall f, carries f line = false.
Proof.
  unfold tagged, all_fields. simpl. intros H f.
  repeat (apply orb_false_iff in H; destruct H as [? H]).
  destruct f; assumption.
Qed.

Lemma tagged_true (line : str) :
  tagged line = true -> exists f, carries f line = true.
Proof.
  unfold tagged. rewrite existsb_exists. intros [f [_ H]]. now exists f.
Qed.

Lemma process_line_untagged (a : Analysis) (line : str) :
  tagged line = false -> process_line a line = a.
Proof.
  intros H. apply get_ext. intros f.
  apply process_line_miss. now apply tagged_false.
Qed.

Lemma carries_other (f g : Field) (line : str) :
  carries g line = true -> f <> g -> carries f line = false.
Proof.
  intros Hg Hne. destruct (carries f line) eqn:E; trivial.
  exfalso. apply Hne. exact (carries_unique f g line E Hg).
Qed.

(** What the loop leaves under a key comes from the lines alone as soon as
    one of them carries the key's tag, and from the start value otherwise. *)
Lemma loop_from (f : Field) (ls : list str) (a : Analysis) :
  get f (fold_left process_line ls a)
  = if existsb (carries f) ls
    then get f (fold_left process_line ls initial_analysis)
    else get f a.
Proof.
  revert a. induction ls as [|x ls IH]; intros a; trivial.
  simpl. rewrite IH. rewrite (IH (process_line initial_analysis x)).
  destruct (existsb (carries f) ls).
  - now rewrite orb_true_r.
  - rewrite orb_false_r. destruct (carries f x) eqn:E.
    + now rewrite !process_line_hit.
    + now apply process_line_miss.
Qed.

Lemma tag_leading (f : Field) : leading_ws (tag_of f) = false.
Proof. destruct f; reflexivity. Qed.

Lemma tag_no_newline (f : Field) : ~ In newline (tag_of f).
Proof.
  destruct f; simpl; unfold newline; intuition discriminate.
Qed.

Lemma tag_not_at_space (f : Field) (v : str) :
  occurs (tag_of f) (space :: v) = occurs (tag_of f) v.
Proof.
  change (occurs (tag_of f) (space :: v))
    with (startswith (space :: v) (tag_of f) || occurs (tag_of f) v).
  now destruct f.
Qed.

Lemma strip_space_cons (v : str) : strip (space :: v) = strip v.
Proof.
  pose proof (strip_padding [space] v [] eq_refl eq_refl) as H.
  now rewrite app_nil_r in H.
Qed.

Lemma strip_fixed_trailing (s : str) : strip s = s -> trailing_ws s = false.
Proof. intros H. rewrite <- H. apply trailing_ws_strip. Qed.

(** A scalar line of the requested format gives its value back. *)
Lemma scalar_line_value (f : Field) (v : str) :
  is_list_field f = false ->
  plain_text (tag_of f) v ->
  strip (render_scalar (tag_of f) v) = render_scalar (tag_of f) v /\
  carries f (render_scalar (tag_of f) v) = true /\
  line_value f (strip (render_scalar (tag_of f) v)) = VStr v.
Proof.
  intros Hf [[Hne [Hl Ht]] [_ Hocc]].
  assert (S : strip (render_scalar (tag_of f) v)
              = render_scalar (tag_of f) v).
  { apply strip_trimmed. unfold render_scalar. split.
    - rewrite leading_ws_app by apply tag_nonempty. apply tag_leading.
    - rewrite trailing_ws_app by discriminate.
      change (space :: v) with ([space] ++ v).
      now rewrite trailing_ws_app. }
  split; [exact S|]. split.
  - unfold carries. rewrite S. apply startswith_app.
  - unfold line_value. rewrite Hf, S. f_equal.
    unfold render_scalar. rewrite tag_text_verbatim.
    + unfold after_prefix. rewrite skipn_prefix, strip_space_cons.
      apply strip_trimmed. now split.
    + apply tag_nonempty.
    + apply startswith_app.
    + now rewrite skipn_prefix, tag_not_at_space.
Qed.

Lemma items_body_trailing (x : str) (xs : list str) :
  Forall plain_item (x :: xs) ->
  trailing_ws (join semicolon (x :: map (cons space) xs)) = false.
Proof.
  revert x. induction xs as [|z zs IH]; intros x H.
  - inversion H as [|? ? [[_ [_ Ht]] _] _]; subst. exact Ht.
  - inversion H as [|? ? _ Hz]; subst.
    change (map (cons space) (z :: zs))
      with ((space :: z) :: map (cons space) zs).
    rewrite join_cons, join_push.
    rewrite trailing_ws_app by discriminate.
    change (semicolon :: space :: join semicolon (z :: map (cons space) zs))
      with ([semicolon; space]
            ++ join semicolon (z :: map (cons space) zs)).
    rewrite trailing_ws_app; [now apply IH|].
    apply join_not_nil.
    inversion Hz as [|? ? [[Hne _] _] _]; subst. exact Hne.
Qed.

Lemma items_body_leading (x : str) (ys : list str) :
  x <> [] -> leading_ws (join semicolon (x :: ys)) = leading_ws x.
Proof.
  intros Hx. destruct ys; trivial.
  rewrite join_cons. now apply leading_ws_app.
Qed.

Lemma items_padded (xs : list str) :
  Forall plain_item xs ->
  flat_map (fun s => if is_empty (strip s) then [] else [strip s])
    (map (cons space) xs) = xs.
Proof.
  induction 1 as [|x xs [[Hne [Hl Ht]] _] _ IH]; trivial.
  simpl. rewrite strip_space_cons, strip_trimmed by now split.
  destruct x; [congruence|]. simpl. now rewrite IH.
Qed.

(** A list line of the requested format gives its items back. *)
Lemma list_line_value (f : Field) (xs : list str) :
  is_list_field f = true ->
  Forall plain_item xs ->
  occurs (tag_of f) (render_items xs) = false ->
  strip (render_list (tag_of f) xs) = render_list (tag_of f) xs /\
  carries f (render_list (tag_of f) xs) = true /\
  line_value f (strip (render_list (tag_of f) xs)) = VList xs.
Proof.
  intros Hf Hxs Hocc.
  assert (S : strip (render_list (tag_of f) xs) = render_list (tag_of f) xs).
  { destruct xs as [|x xs].
    - unfold render_list, render_items. simpl. rewrite app_nil_r.
      now destruct f.
    - apply strip_trimmed. unfold render_list, render_items.
      change (map (cons space) (x :: xs))
        with ((space :: x) :: map (cons space) xs).
      rewrite join_push. split.
      + rewrite leading_ws_app by apply tag_nonempty. apply tag_leading.
      + rewrite trailing_ws_app by discriminate.
        change (space :: join semicolon (x :: map (cons space) xs))
          with ([space] ++ join semicolon (x :: map (cons space) xs)).
        rewrite trailing_ws_app; [now apply items_body_trailing|].
        apply join_not_nil.
        inversion Hxs as [|? ? [[Hne _] _] _]; subst. exact Hne. }
  split; [exact S|]. split.
  - unfold carries. rewrite S. apply startswith_app.
  - unfold line_value. rewrite Hf, S. f_equal.
    unfold render_list. rewrite tag_text_verbatim;
      [|apply tag_nonempty|apply startswith_app
       |now rewrite skipn_prefix].
    unfold after_prefix. rewrite skipn_prefix.
    destruct xs as [|x xs]; [reflexivity|].
    unfold render_items.
    change (map (cons space) (x :: xs))
      with ((space :: x) :: map (cons space) xs).
    rewrite join_push, strip_space_cons.
    inversion Hxs as [|? ? [[Hne [Hl Ht]] [Hsemi _]] Hrest]; subst.
    rewrite strip_trimmed.
    + unfold items. rewrite split_join.
      * simpl. rewrite strip_trimmed by now split.
        destruct x; [congruence|]. simpl. f_equal.
        now apply items_padded.
      * discriminate.
      * constructor; trivial.
        clear - Hrest. induction Hrest as [|y ys [_ [Hy _]] _ IH];
          simpl; constructor; trivial.
        intros [E|E]; [discriminate | now apply Hy].
    + split.
      * now rewrite items_body_leading.
      * now apply items_body_trailing.
Qed.

Lemma join_leading (sep : char) (y : str) (ys : list str) :
  y <> [] -> leading_ws (join sep (y :: ys)) = leading_ws y.
Proof.
  intros Hy. destruct ys; trivial.
  rewrite join_cons. now apply leading_ws_app.
Qed.

Lemma join_trailing (sep : char) (ys : list str) (y : str) :
  y <> [] -> trailing_ws (join sep (ys ++ [y])) = trailing_ws y.
Proof.
  intros Hy. induction ys as [|z zs IH]; trivial.
  destruct zs as [|w ws].
  - simpl. rewrite trailing_ws_app by discriminate.
    change (sep :: y) with ([sep] ++ y). now apply trailing_ws_app.
  - change ((z :: w :: ws) ++ [y]) with (z :: w :: (ws ++ [y])).
    rewrite join_cons. rewrite trailing_ws_app by discriminate.
    change (sep :: join sep (w :: ws ++ [y]))
      with ([sep] ++ join sep ((w :: ws) ++ [y])).
    rewrite trailing_ws_app; [exact IH|].
    simpl. destruct (ws ++ [y]) eqn:E.
    + now destruct ws.
    + destruct w; discriminate.
Qed.

Lemma loop_filter_tagged (ls : list str) (a : Analysis) :
  fold_left process_line (filter tagged ls) a = fold_left process_line ls a.
Proof.
  revert a. induction ls as [|x ls IH]; intros a; trivial.
  simpl. destruct (tagged x) eqn:E; simpl.
  - apply IH.
  - rewrite process_line_untagged by assumption. apply IH.
Qed.

Lemma process_line_padding (a : Analysis) (p line q : str) :
  blank p = true -> blank q = true ->
  process_line a (p ++ line ++ q) = process_line a line.
Proof.
  intros Hp Hq. unfold process_line.
  now rewrite strip_padding.
Qed.

Section EndpointFacts.

Variable exn_str : Endpoint.exn -> str.
Variable file_read : Endpoint.UploadFile -> Endpoint.result (list N).
Variable b64encode : list N -> str.
Variable chat_completion : str -> Endpoint.result (option str).
Variable now_isoformat : str.

(** Every way through the [try] block that returns. *)
Lemma analyze_leaf_returns
    (file : Endpoint.UploadFile) (response : Endpoint.AnalysisResponse) :
  Endpoint.analyze_leaf exn_str file_read b64encode chat_completion
    now_isoformat file = inr response ->
  exists ct image_data response_text,
    Endpoint.content_type file = Some ct /\
    startswith ct (lit "image/") = true /\
    file_read file = inr image_data /\
    chat_completion (b64encode image_data) = inr (Some response_text) /\
    response = Endpoint.with_timestamp Endpoint.mkAnalysisResponse
                 (parse_analysis_response response_text) now_isoformat.
Proof.
  unfold Endpoint.analyze_leaf, Endpoint.analyze_body, Endpoint.bind.
  destruct (Endpoint.content_type file) as [ct|]; [|discriminate].
  destruct (startswith ct (lit "image/")) eqn:Ect; [|discriminate].
  cbn [negb].
  destruct (file_read file) as [e|image_data]; [discriminate|].
  destruct (chat_completion (b64encode image_data)) as [e|[text|]] eqn:Ec;
    try discriminate.
  intros H. injection H as <-.
  exists ct, image_data, text. repeat split; trivial.
Qed.

End EndpointFacts.

End MoreExtractorFacts.

(** ** Further properties of the extractor *)

(** X1: lines that carry none of the seven tags are ignored: the loop
    leaves the same record whether or not they are in the reply. *)
Theorem untagged_lines_ignored (ls : list str) :
  scan (filter tagged ls) = scan ls.
Proof. apply loop_filter_tagged. Qed.

(** X2: a reply without any tagged line gives the default record: the
    default scalars, the first 200 characters of the reply and the
    ellipsis as description, and the three fallback lists. *)
Theorem untagged_reply_gives_defaults (s : str) :
  (forall x, In x (lines_of s) -> tagged x = false) ->
  parse_analysis_response s =
    {| disease_name := lit "Unknown";
       confidence := lit "Medium";
       description := slice_to 200 s ++ lit "...";
       symptoms := FALLBACK_SYMPTOMS;
       treatment := FALLBACK_TREATMENT;
       prevention := FALLBACK_PREVENTION;
       severity := lit "Unknown" |}.
Proof.
  intros H. unfold parse_analysis_response.
  assert (E : scan (lines_of s) = initial_analysis).
  { unfold scan. rewrite <- loop_filter_tagged.
    replace (filter tagged (lines_of s)) with (@nil str); trivial.
    symmetry. induction (lines_of s) as [|x ls IH]; trivial.
    simpl. rewrite (H x) by now left.
    apply IH. intros y Hy. apply H. now right. }
  rewrite E. unfold fallback. rewrite lines_of_pos. reflexivity.
Qed.

Lemma untagged_reply_gives_defaults_witness :
  description (parse_analysis_response (lit "The leaf looks fine to me."))
  = lit "The leaf looks fine to me....".
Proof.
  rewrite untagged_reply_gives_defaults; [reflexivity|].
  intros x [<-|[]]. reflexivity.
Defined.

(** X3: whitespace before and after a line does not change what the loop
    does with it. *)
Theorem line_padding_ignored (a : Analysis) (p line q : str) :
  blank p = true -> blank q = true ->
  process_line a (p ++ line ++ q) = process_line a line.
Proof. apply process_line_padding. Qed.

Lemma line_padding_ignored_witness :
  severity (process_line initial_analysis
              (lit "   " ++ lit "SEVERITY: Mild" ++ [9; 13]%N))
  = lit "Mild".
Proof.
  rewrite line_padding_ignored; reflexivity.
Defined.

(** X4: the loop over two blocks of lines: a key holds what the second
    block alone gives when one of its lines carries the key's tag, and
    what the first block gives otherwise. *)
Theorem later_block_overrides (f : Field) (ls1 ls2 : list str) :
  get f (scan (ls1 ++ ls2))
  = if existsb (carries f) ls2 then get f (scan ls2) else get f (scan ls1).
Proof.
  unfold scan. rewrite fold_left_app. apply loop_from.
Qed.

(** X5: in the returned record [disease_name], [confidence] and
    [severity] have no whitespace at either end, and the description has
    none at its end; the description the loop leaves has none at either
    end. *)
Theorem scalar_fields_trimmed (s : str) :
  ends_trimmed (disease_name (parse_analysis_response s)) /\
  ends_trimmed (confidence (parse_analysis_response s)) /\
  ends_trimmed (severity (parse_analysis_response s)) /\
  trailing_ws (description (parse_analysis_response s)) = false /\
  ends_trimmed (description (scan (lines_of s))).
Proof.
  assert (T : forall f v, is_list_field f = false ->
                get f (scan (lines_of s)) = VStr v -> ends_trimmed v).
  { intros f v Hf Hv. unfold scan in Hv.
    destruct (loop_origin f (lines_of s) initial_analysis)
      as [E|[x [_ [_ E]]]]; rewrite E in Hv.
    - destruct f; try discriminate; injection Hv as <-;
        split; reflexivity.
    - unfold line_value in Hv. rewrite Hf in Hv. injection Hv as <-.
      split; [apply leading_ws_strip | apply trailing_ws_strip]. }
  pose proof (parse_get F_disease_name s) as H1.
  pose proof (parse_get F_confidence s) as H2.
  pose proof (parse_get F_severity s) as H3.
  pose proof (parse_get F_description s) as H4.
  cbn [get after_fallback] in H1, H2, H3. cbn [get] in H4.
  injection H1 as H1. injection H2 as H2. injection H3 as H3.
  rewrite H1, H2, H3.
  pose proof (T F_description _ eq_refl eq_refl) as D.
  split; [apply (T F_disease_name); reflexivity|].
  split; [apply (T F_confidence); reflexivity|].
  split; [apply (T F_severity); reflexivity|].
  split; [|exact D].
  destruct (description (scan (lines_of s))) eqn:E;
    cbn [after_fallback] in H4; injection H4 as H4; rewrite H4.
  - now rewrite trailing_ws_app.
  - apply D.
Qed.

(** X6: whitespace and blank lines around the whole reply do not change
    the lines the loop sees, hence no field other than a description taken
    from the raw text. *)
Theorem reply_padding_ignored (p s q : str) (f : Field) :
  blank p = true -> blank q = true ->
  lines_of (p ++ s ++ q) = lines_of s /\
  (f <> F_description ->
   get f (parse_analysis_response (p ++ s ++ q))
   = get f (parse_analysis_response s)) /\
  (description (scan (lines_of s)) <> [] ->
   parse_analysis_response (p ++ s ++ q) = parse_analysis_response s).
Proof.
  intros Hp Hq.
  assert (L : lines_of (p ++ s ++ q) = lines_of s)
    by (unfold lines_of; now rewrite strip_padding).
  split; [exact L|]. split.
  - intros Hf. rewrite !parse_get, L.
    destruct f; try congruence;
      destruct (get _ (scan (lines_of s))) as [[|]|[|]]; reflexivity.
  - intros Hd. apply get_ext. intros g. rewrite !parse_get, L.
    destruct g; cbn [get]; try reflexivity.
    destruct (description (scan (lines_of s))); [congruence | reflexivity].
Qed.

Lemma reply_padding_ignored_witness :
  disease_name
    (parse_analysis_response
       ([10; 32]%N ++ lit "DISEASE NAME: Rust" ++ [32; 10; 10]%N))
  = lit "Rust".
Proof.
  destruct (reply_padding_ignored [10; 32]%N (lit "DISEASE NAME: Rust")
              [32; 10; 10]%N F_disease_name eq_refl eq_refl)
    as [_ [H _]].
  exact (f_equal (fun v => match v with VStr t => t | VList _ => [] end)
           (H ltac:(discriminate))).
Defined.

(** X17: a line sets the one key whose tag it starts with and leaves the
    six other keys as they were; no line starts with two tags, so the
    order of the [elif] chain never decides. *)
Theorem line_sets_one_key (f g : Field) (a : Analysis) (line : str) :
  carries f line = true ->
  g <> f ->
  get f (process_line a line) = line_value f (strip line) /\
  carries g line = false /\
  get g (process_line a line) = get g a.
Proof.
  intros Hf Hg.
  assert (C : carries g line = false) by (eapply carries_other; eauto).
  repeat split; trivial.
  - now apply process_line_hit.
  - now apply process_line_miss.
Qed.

Lemma line_sets_one_key_witness :
  get F_disease_name
    (process_line initial_analysis (lit "SEVERITY: DISEASE NAME: x"))
  = VStr (lit "Unknown").
Proof.
  destruct (line_sets_one_key F_severity F_disease_name initial_analysis
              (lit "SEVERITY: DISEASE NAME: x") eq_refl)
    as [_ [_ H]]; [discriminate|].
  rewrite H. reflexivity.
Defined.

(** X18: a line carrying the tag of [symptoms], [treatment] or
    [prevention] that does not mention the tag a second time stores the
    segments of the text after the tag, split at [;], each trimmed, the
    empty ones dropped, in their order; the segments are what joining
    with [;] undoes, and none of them holds a [;]. *)
Theorem list_line_segments (f : Field) (a : Analysis) (line : str) :
  is_list_field f = true ->
  carries f line = true ->
  occurs (tag_of f) (skipn (length (tag_of f)) (strip line)) = false ->
  let text := after_prefix (strip line) (tag_of f) in
  get f (process_line a line) = VList (split_trim_discard text) /\
  join semicolon (split semicolon text) = text /\
  Forall (fun seg => ~ In semicolon seg) (split semicolon text).
Proof.
  intros Hf Hc Hocc text. repeat split.
  - rewrite (process_line_hit f a line Hc). unfold line_value.
    rewrite Hf, items_spec. unfold text.
    rewrite tag_text_verbatim; trivial. apply tag_nonempty.
  - apply join_split.
  - apply split_no_sep.
Qed.

Lemma list_line_segments_witness :
  get F_treatment
    (process_line initial_analysis (lit "  TREATMENT: prune ;; spray; "))
  = VList [lit "prune"; lit "spray"].
Proof.
  destruct (list_line_segments F_treatment initial_analysis
              (lit "  TREATMENT: prune ;; spray; ") eq_refl eq_refl eq_refl)
    as [H _].
  rewrite H. reflexivity.
Defined.

(** X7: a scalar line in the requested format, indented or not, stores its
    value: trimmed, non-empty, on one line and not mentioning its own tag. *)
Theorem scalar_line_round_trip
    (f : Field) (a : Analysis) (v p q : str) :
  is_list_field f = false ->
  plain_text (tag_of f) v ->
  blank p = true -> blank q = true ->
  get f (process_line a (p ++ render_scalar (tag_of f) v ++ q)) = VStr v.
Proof.
  intros Hf Hv Hp Hq. rewrite process_line_padding by assumption.
  destruct (scalar_line_value f v Hf Hv) as [_ [Hc Hl]].
  now rewrite process_line_hit.
Qed.

Lemma scalar_line_round_trip_witness :
  confidence (process_line initial_analysis (lit "  CONFIDENCE: Low"))
  = lit "Low".
Proof.
  assert (P : plain_text (tag_of F_confidence) (lit "Low")).
  { repeat split; try discriminate; try reflexivity.
    simpl. unfold newline. intuition discriminate. }
  exact (f_equal (fun v => match v with VStr t => t | VList _ => [] end)
           (scalar_line_round_trip F_confidence initial_analysis
              (lit "Low") (lit "  ") [] eq_refl P eq_refl eq_refl)).
Defined.

(** X8: a list line in the requested format, indented or not, stores
    exactly its items, in order, when each item is trimmed, non-empty and
    free of semicolons and the line does not mention its tag again. *)
Theorem list_line_round_trip
    (f : Field) (a : Analysis) (xs : list str) (p q : str) :
  is_list_field f = true ->
  Forall plain_item xs ->
  occurs (tag_of f) (render_items xs) = false ->
  blank p = true -> blank q = true ->
  get f (process_line a (p ++ render_list (tag_of f) xs ++ q)) = VList xs.
Proof.
  intros Hf Hxs Hocc Hp Hq. rewrite process_line_padding by assumption.
  destruct (list_line_value f xs Hf Hxs Hocc) as [_ [Hc Hl]].
  now rewrite process_line_hit.
Qed.

Lemma list_line_round_trip_witness :
  treatment
    (process_line initial_analysis (lit "TREATMENT: prune; spray weekly"))
  = [lit "prune"; lit "spray weekly"].
Proof.
  assert (P : Forall plain_item [lit "prune"; lit "spray weekly"]).
  { repeat constructor; try discriminate;
      simpl; unfold semicolon, newline; intuition discriminate. }
  exact (f_equal (fun v => match v with VList l => l | VStr _ => [] end)
           (list_line_round_trip F_treatment initial_analysis
              [lit "prune"; lit "spray weekly"] [] [] eq_refl P eq_refl
              eq_refl eq_refl)).
Defined.

(** X9: a reply in the format the prompt asks for is read back exactly:
    for a record whose values are trimmed, non-empty, without line breaks,
    without semicolons inside list items and without their own tag,
    parsing the seven rendered lines returns the record. *)
Theorem requested_format_round_trip (r : Analysis) :
  well_formed r -> parse_analysis_response (render r) = r.
Proof.
  intros [W1 [W2 [W3 [[N4 [I4 O4]] [[N5 [I5 O5]] [[N6 [I6 O6]] W7]]]]]].
  destruct (scalar_line_value F_disease_name _ eq_refl W1) as [S1 [C1 V1]].
  destruct (scalar_line_value F_confidence _ eq_refl W2) as [S2 [C2 V2]].
  destruct (scalar_line_value F_description _ eq_refl W3) as [S3 [C3 V3]].
  destruct (list_line_value F_symptoms _ eq_refl I4 O4) as [S4 [C4 V4]].
  destruct (list_line_value F_treatment _ eq_refl I5 O5) as [S5 [C5 V5]].
  destruct (list_line_value F_prevention _ eq_refl I6 O6) as [S6 [C6 V6]].
  destruct (scalar_line_value F_severity _ eq_refl W7) as [S7 [C7 V7]].
  cbn [tag_of] in *.
  set (l1 := render_scalar TAG_DISEASE_NAME (disease_name r)) in *.
  set (l2 := render_scalar TAG_CONFIDENCE (confidence r)) in *.
  set (l3 := render_scalar TAG_DESCRIPTION (description r)) in *.
  set (l4 := render_list TAG_SYMPTOMS (symptoms r)) in *.
  set (l5 := render_list TAG_TREATMENT (treatment r)) in *.
  set (l6 := render_list TAG_PREVENTION (prevention r)) in *.
  set (l7 := render_scalar TAG_SEVERITY (severity r)) in *.
  assert (NS : forall tag v, ~ In newline tag -> ~ In newline v ->
                 ~ In newline (render_scalar tag v)).
  { intros tag v Ht Hv Hin. unfold render_scalar in Hin.
    apply in_app_or in Hin. destruct Hin as [H|[H|H]]; auto.
    discriminate. }
  assert (NL : forall tag xs, ~ In newline tag -> Forall plain_item xs ->
                 ~ In newline (render_list tag xs)).
  { intros tag xs Ht Hxs Hin. unfold render_list, render_items in Hin.
    apply in_app_or in Hin. destruct Hin as [H|H]; auto.
    apply in_join in H. destruct H as [H|[y [Hy Hc]]]; [discriminate|].
    apply in_map_iff in Hy. destruct Hy as [x [<- Hx]].
    rewrite Forall_forall in Hxs. destruct (Hxs x Hx) as [_ [_ Hn]].
    destruct Hc as [Hc|Hc]; [discriminate | auto]. }
  assert (L : lines_of (render r) = [l1; l2; l3; l4; l5; l6; l7]).
  { unfold lines_of, render. fold l1 l2 l3 l4 l5 l6 l7.
    rewrite strip_trimmed.
    - apply split_join; [discriminate|].
      destruct W1 as [_ [X1 _]], W2 as [_ [X2 _]], W3 as [_ [X3 _]],
               W7 as [_ [X7 _]].
      repeat constructor;
        first [ apply NS; trivial | apply NL; trivial ];
        first [ exact (tag_no_newline F_disease_name)
              | exact (tag_no_newline F_confidence)
              | exact (tag_no_newline F_description)
              | exact (tag_no_newline F_symptoms)
              | exact (tag_no_newline F_treatment)
              | exact (tag_no_newline F_prevention)
              | exact (tag_no_newline F_severity) ].
    - split.
      + rewrite join_leading by discriminate. reflexivity.
      + change [l1; l2; l3; l4; l5; l6; l7]
          with ([l1; l2; l3; l4; l5; l6] ++ [l7]).
        rewrite join_trailing by discriminate.
        now apply strip_fixed_trailing. }
  assert (O : forall f g x, carries g x = true -> f <> g ->
                carries f x = false)
    by (intros; eapply carries_other; eauto).
  apply get_ext. intros f. rewrite parse_get, L. unfold scan.
  destruct W1 as [[E1 _] _], W2 as [[E2 _] _], W3 as [[E3 _] _],
           W7 as [[E7 _] _].
  destruct f.
  - rewrite (loop_last F_disease_name [] [l2; l3; l4; l5; l6; l7] l1);
      [now rewrite V1 | exact C1 |].
    intros y Hy. simpl in Hy.
    repeat destruct Hy as [<-|Hy]; try contradiction;
      eapply O; eauto; discriminate.
  - rewrite (loop_last F_confidence [l1] [l3; l4; l5; l6; l7] l2);
      [now rewrite V2 | exact C2 |].
    intros y Hy. simpl in Hy.
    repeat destruct Hy as [<-|Hy]; try contradiction;
      eapply O; eauto; discriminate.
  - rewrite (loop_last F_description [l1; l2] [l4; l5; l6; l7] l3);
      [rewrite V3; cbn [after_fallback get];
       destruct (description r); congruence | exact C3 |].
    intros y Hy. simpl in Hy.
    repeat destruct Hy as [<-|Hy]; try contradiction;
      eapply O; eauto; discriminate.
  - rewrite (loop_last F_symptoms [l1; l2; l3] [l5; l6; l7] l4);
      [rewrite V4; cbn [after_fallback get];
       destruct (symptoms r); congruence | exact C4 |].
    intros y Hy. simpl in Hy.
    repeat destruct Hy as [<-|Hy]; try contradiction;
      eapply O; eauto; discriminate.
  - rewrite (loop_last F_treatment [l1; l2; l3; l4] [l6; l7] l5);
      [rewrite V5; cbn [after_fallback get];
       destruct (treatment r); congruence | exact C5 |].
    intros y Hy. simpl in Hy.
    repeat destruct Hy as [<-|Hy]; try contradiction;
      eapply O; eauto; discriminate.
  - rewrite (loop_last F_prevention [l1; l2; l3; l4; l5] [l7] l6);
      [rewrite V6; cbn [after_fallback get];
       destruct (prevention r); congruence | exact C6 |].
    intros y Hy. simpl in Hy.
    repeat destruct Hy as [<-|Hy]; try contradiction;
      eapply O; eauto; discriminate.
  - rewrite (loop_last F_severity [l1; l2; l3; l4; l5; l6] [] l7);
      [now rewrite V7 | exact C7 |].
    intros y [].
Qed.

Lemma requested_format_round_trip_witness :
  parse_analysis_response (render rust_record) = rust_record.
Proof.
  apply requested_format_round_trip.
  unfold well_formed, plain_text, plain_items, plain_item, clean_item.
  repeat split; try discriminate; try reflexivity;
    repeat constructor; try discriminate; try reflexivity;
    simpl; unfold newline, semicolon; intuition discriminate.
Defined.

(** ** Further properties of the [/analyze] endpoint *)

(** X10: the ways the [try] block fails.  It raises an exception [e] (of
    the class [Exception]) exactly in five cases: the content type is
    [None]; it does not start with [image/], and [e] is the 400 exception;
    reading the file raises [e]; the model call raises [e]; the model
    returns no text.  The endpoint then answers 500 with
    [Error analyzing image: ] followed by [str(e)]. *)
Theorem analyze_failure_causes
    (exn_str : Endpoint.exn -> str)
    (file_read : Endpoint.UploadFile -> Endpoint.result (list N))
    (b64encode : list N -> str)
    (chat_completion : str -> Endpoint.result (option str))
    (now_isoformat : str) (file : Endpoint.UploadFile) (e : Endpoint.exn) :
  (Endpoint.analyze_body file_read b64encode chat_completion now_isoformat
     file = inl e <->
   (Endpoint.content_type file = None /\
    e = Endpoint.AttributeError
          (lit "'NoneType' object has no attribute 'startswith'")) \/
   (exists ct,
      Endpoint.content_type file = Some ct /\
      startswith ct (lit "image/") = false /\
      e = Endpoint.HTTPException 400
            (lit "File must be an image (JPEG, PNG, etc.)")) \/
   (exists ct,
      Endpoint.content_type file = Some ct /\
      startswith ct (lit "image/") = true /\
      file_read file = inl e) \/
   (exists ct image_data,
      Endpoint.content_type file = Some ct /\
      startswith ct (lit "image/") = true /\
      file_read file = inr image_data /\
      chat_completion (b64encode image_data) = inl e) \/
   (exists ct image_data,
      Endpoint.content_type file = Some ct /\
      startswith ct (lit "image/") = true /\
      file_read file = inr image_data /\
      chat_completion (b64encode image_data) = inr None /\
      e = Endpoint.AttributeError
            (lit "'NoneType' object has no attribute 'strip'"))) /\
  (Endpoint.analyze_body file_read b64encode chat_completion now_isoformat
     file = inl e ->
   Endpoint.analyze_leaf exn_str file_read b64encode chat_completion
     now_isoformat file
   = inl (Endpoint.HTTPException 500
            (lit "Error analyzing image: " ++ exn_str e))).
Proof.
  split.
  - unfold Endpoint.analyze_body, Endpoint.bind. split.
    + destruct (Endpoint.content_type file) as [ct|].
      * destruct (startswith ct (lit "image/")) eqn:Ect; cbn [negb].
        -- destruct (file_read file) as [e1|image_data] eqn:Er.
           ++ intros H. injection H as <-.
              right. right. left. exists ct. auto.
           ++ destruct (chat_completion (b64encode image_data))
                as [e2|[text|]] eqn:Ec.
              ** intros H. injection H as <-.
                 right. right. right. left. exists ct, image_data. auto.
              ** discriminate.
              ** intros H. injection H as <-.
                 right. right. right. right. exists ct, image_data.
                 repeat split; trivial.
        -- intros H. injection H as <-.
           right. left. exists ct. auto.
      * intros H. injection H as <-. left. auto.
    + intros [[Hn He]
             |[[ct [Hc [Hp He]]]
              |[[ct [Hc [Hp Hr]]]
               |[[ct [d [Hc [Hp [Hr Hm]]]]]
                |[ct [d [Hc [Hp [Hr [Hm He]]]]]]]]]].
      * now rewrite Hn, He.
      * now rewrite Hc, Hp, He.
      * now rewrite Hc, Hp, Hr.
      * now rewrite Hc, Hp, Hr, Hm.
      * now rewrite Hc, Hp, Hr, Hm, He.
  - intros H. unfold Endpoint.analyze_leaf. now rewrite H.
Qed.

Lemma analyze_failure_causes_witness :
  Endpoint.analyze_leaf sample_exn_str
    (fun _ => inl (Endpoint.UpstreamError (lit "read failed")))
    (fun _ => lit "aGk=")
    (fun _ => inr (Some (lit "SEVERITY: Mild")))
    (lit "2024-01-01T00:00:00")
    (Endpoint.mkUploadFile (Some (lit "image/png")) [104; 105]%N)
  = inl (Endpoint.HTTPException 500
           (lit "Error analyzing image: read failed")).
Proof.
  destruct (analyze_failure_causes sample_exn_str
              (fun _ => inl (Endpoint.UpstreamError (lit "read failed")))
              (fun _ => lit "aGk=")
              (fun _ => inr (Some (lit "SEVERITY: Mild")))
              (lit "2024-01-01T00:00:00")
              (Endpoint.mkUploadFile (Some (lit "image/png")) [104; 105]%N)
              (Endpoint.UpstreamError (lit "read failed")))
    as [[_ Cause] Answer].
  rewrite Answer; [reflexivity|].
  apply Cause. right. right. left. exists (lit "image/png").
  repeat split.
Defined.

(** X11: the endpoint answers 200 exactly when the content type starts
    with [image/], the file is read, and the model call returns a text;
    whenever these three hold, the response is the record extracted from
    that text with the timestamp added. *)
Theorem analyze_succeeds_exactly
    (exn_str : Endpoint.exn -> str)
    (file_read : Endpoint.UploadFile -> Endpoint.result (list N))
    (b64encode : list N -> str)
    (chat_completion : str -> Endpoint.result (option str))
    (now_isoformat : str) (file : Endpoint.UploadFile) :
  let r := Endpoint.analyze_leaf exn_str file_read b64encode chat_completion
             now_isoformat file in
  (Endpoint.http_status r = 200%Z <->
   exists ct image_data response_text,
     Endpoint.content_type file = Some ct /\
     startswith ct (lit "image/") = true /\
     file_read file = inr image_data /\
     chat_completion (b64encode image_data) = inr (Some response_text)) /\
  (forall ct image_data response_text,
     Endpoint.content_type file = Some ct ->
     startswith ct (lit "image/") = true ->
     file_read file = inr image_data ->
     chat_completion (b64encode image_data) = inr (Some response_text) ->
     r = inr (Endpoint.with_timestamp Endpoint.mkAnalysisResponse
                (parse_analysis_response response_text) now_isoformat)).
Proof.
  intros r. subst r.
  assert (Enough : forall ct image_data response_text,
            Endpoint.content_type file = Some ct ->
            startswith ct (lit "image/") = true ->
            file_read file = inr image_data ->
            chat_completion (b64encode image_data)
            = inr (Some response_text) ->
            Endpoint.analyze_leaf exn_str file_read b64encode
              chat_completion now_isoformat file
            = inr (Endpoint.with_timestamp Endpoint.mkAnalysisResponse
                     (parse_analysis_response response_text)
                     now_isoformat)).
  { intros ct d text Hc Hp Hr Hm.
    unfold Endpoint.analyze_leaf, Endpoint.analyze_body, Endpoint.bind.
    now rewrite Hc, Hp, Hr, Hm. }
  split; [split|exact Enough].
  - intros H.
    destruct (Endpoint.analyze_leaf exn_str file_read b64encode
                chat_completion now_isoformat file)
      as [e|response] eqn:E.
    + unfold Endpoint.analyze_leaf in E.
      destruct (Endpoint.analyze_body file_read b64encode chat_completion
                  now_isoformat file);
        [injection E as <-; discriminate H | discriminate E].
    + destruct (analyze_leaf_returns exn_str file_read b64encode
                  chat_completion now_isoformat file response E)
        as [ct [d [text [H1 [H2 [H3 [H4 _]]]]]]].
      exists ct, d, text. repeat split; trivial.
  - intros [ct [d [text [Hc [Hp [Hr Hm]]]]]].
    now rewrite (Enough ct d text Hc Hp Hr Hm).
Qed.

Lemma analyze_succeeds_exactly_witness :
  Endpoint.http_status
    (Endpoint.analyze_leaf sample_exn_str
       (fun f => inr (Endpoint.contents f)) (fun _ => lit "aGk=")
       (fun _ => inr (Some (lit "SEVERITY: Mild")))
       (lit "2024-01-01T00:00:00")
       (Endpoint.mkUploadFile (Some (lit "image/png")) [104; 105]%N))
  = 200%Z /\
  Endpoint.analyze_leaf sample_exn_str
    (fun f => inr (Endpoint.contents f)) (fun _ => lit "aGk=")
    (fun _ => inr (Some (lit "SEVERITY: Mild")))
    (lit "2024-01-01T00:00:00")
    (Endpoint.mkUploadFile (Some (lit "image/png")) [104; 105]%N)
  = inr (Endpoint.with_timestamp Endpoint.mkAnalysisResponse
           (parse_analysis_response (lit "SEVERITY: Mild"))
           (lit "2024-01-01T00:00:00")).
Proof.
  destruct (analyze_succeeds_exactly sample_exn_str
              (fun f => inr (Endpoint.contents f)) (fun _ => lit "aGk=")
              (fun _ => inr (Some (lit "SEVERITY: Mild")))
              (lit "2024-01-01T00:00:00")
              (Endpoint.mkUploadFile (Some (lit "image/png"))
                 [104; 105]%N))
    as [[_ Status] Response].
  split.
  - apply Status.
    exists (lit "image/png"), [104; 105]%N, (lit "SEVERITY: Mild").
    repeat split.
  - apply (Response (lit "image/png") [104; 105]%N (lit "SEVERITY: Mild"));
      reflexivity.
Defined.

(** X12: every response model the endpoint returns has a non-empty
    description, non-empty lists of clean items, and the timestamp of the
    call. *)
Theorem analyze_response_populated
    (exn_str : Endpoint.exn -> str)
    (file_read : Endpoint.UploadFile -> Endpoint.result (list N))
    (b64encode : list N -> str)
    (chat_completion : str -> Endpoint.result (option str))
    (now_isoformat : str) (file : Endpoint.UploadFile)
    (response : Endpoint.AnalysisResponse) :
  Endpoint.analyze_leaf exn_str file_read b64encode chat_completion
    now_isoformat file = inr response ->
  Endpoint.description response <> [] /\
  Endpoint.symptoms response <> [] /\
  Endpoint.treatment response <> [] /\
  Endpoint.prevention response <> [] /\
  Forall clean_item (Endpoint.symptoms response) /\
  Forall clean_item (Endpoint.treatment response) /\
  Forall clean_item (Endpoint.prevention response) /\
  Endpoint.timestamp response = now_isoformat.
Proof.
  intros H.
  destruct (analyze_leaf_returns exn_str file_read b64encode
              chat_completion now_isoformat file response H)
    as [ct [d [text [_ [_ [_ [_ E]]]]]]].
  subst response. unfold Endpoint.with_timestamp. simpl.
  destruct (extractor_lists_filled text) as [F1 [F2 F3]].
  destruct (extractor_lists_clean text) as [K1 [K2 K3]].
  repeat split; auto using description_filled.
Qed.

Lemma analyze_response_populated_witness :
  exists response,
    Endpoint.analyze_leaf sample_exn_str
      (fun f => inr (Endpoint.contents f)) (fun _ => lit "aGk=")
      (fun _ => inr (Some (lit "SEVERITY: Mild")))
      (lit "2024-01-01T00:00:00")
      (Endpoint.mkUploadFile (Some (lit "image/png")) [104; 105]%N)
    = inr response /\
    Endpoint.timestamp response = lit "2024-01-01T00:00:00".
Proof.
  eexists. split; [reflexivity|].
  apply (analyze_response_populated sample_exn_str
           (fun f => inr (Endpoint.contents f)) (fun _ => lit "aGk=")
           (fun _ => inr (Some (lit "SEVERITY: Mild")))
           (lit "2024-01-01T00:00:00")
           (Endpoint.mkUploadFile (Some (lit "image/png")) [104; 105]%N)
           _ eq_refl).
Defined.

(** ** Properties of the front end *)

(** X13: whatever the severity text, the badge gets one of the four
    classes the style sheet defines. *)
Theorem severity_class_in_stylesheet (lower : str -> str) (severity : str) :
  In (UI.get_severity_class lower severity) UI.SEVERITY_CLASSES.
Proof.
  unfold UI.get_severity_class, UI.SEVERITY_CLASSES. cbv zeta.
  destruct (occurs (lit "healthy") (lower severity)); [simpl; tauto|].
  destruct (occurs (lit "mild") (lower severity)); [simpl; tauto|].
  destruct (occurs (lit "moderate") (lower severity)); [simpl; tauto|].
  destruct (occurs (lit "severe") (lower severity)); simpl; tauto.
Qed.

(** X14: when no line of the reply carries [SEVERITY:], the extractor's
    default severity is shown with the badge of a mild disease (given that
    [lower] turns [Unknown] into [unknown], as [str.lower] does). *)
Theorem missing_severity_shown_as_mild (lower : str -> str) (s : str) :
  lower (lit "Unknown") = lit "unknown" ->
  (forall x, In x (lines_of s) -> carries F_severity x = false) ->
  severity (parse_analysis_response s) = lit "Unknown" /\
  UI.get_severity_class lower (severity (parse_analysis_response s))
  = lit "severity-mild".
Proof.
  intros Hl H.
  assert (E : severity (parse_analysis_response s) = lit "Unknown").
  { pose proof (parse_get F_severity s) as G.
    unfold scan in G. rewrite loop_miss in G by assumption.
    cbn [get after_fallback] in G. now injection G. }
  split; [exact E|]. rewrite E.
  unfold UI.get_severity_class. cbv zeta. rewrite Hl. reflexivity.
Qed.

Lemma missing_severity_shown_as_mild_witness :
  UI.get_severity_class UI.ascii_lower
    (severity (parse_analysis_response (lit "DISEASE NAME: Rust")))
  = lit "severity-mild".
Proof.
  apply (missing_severity_shown_as_mild UI.ascii_lower
           (lit "DISEASE NAME: Rust") eq_refl).
  intros x [<-|[]]. reflexivity.
Defined.

(** ** Properties of the test script *)

(** X15: the summary never counts a skipped test and never prints the
    label SKIPPED: a skipped analyze test is not stored, so the two or
    three stored results are all passed or failed. *)
Theorem summary_never_skips
    (health root : ApiTest.Outcome) (analyze : option ApiTest.Outcome) :
  let rs := ApiTest.results health root analyze in
  ApiTest.skipped rs = 0 /\
  ApiTest.passed rs + ApiTest.failed rs = length rs /\
  length rs = (if ApiTest.is_None (ApiTest.test_analyze_endpoint analyze)
               then 2 else 3) /\
  Forall (fun kv => ApiTest.label (snd kv) <> ApiTest.SKIPPED) rs.
Proof.
  unfold ApiTest.results, ApiTest.skipped, ApiTest.passed, ApiTest.failed.
  destruct (ApiTest.test_health_check health),
           (ApiTest.test_root_endpoint root),
           (ApiTest.test_analyze_endpoint analyze) as [[|]|];
    simpl; repeat split; repeat constructor; discriminate.
Qed.

(** X16: [main] returns [True] exactly when the health test and the root
    test passed and the analyze test passed or was skipped; the summary
    then ends with the all-passed line, and with the some-failed line
    otherwise: one of the two is always printed. *)
Theorem main_succeeds_exactly
    (health root : ApiTest.Outcome) (analyze : option ApiTest.Outcome) :
  ApiTest.main health root analyze
  = ApiTest.test_health_check health
    && ApiTest.test_root_endpoint root
    && negb (ApiTest.is_False (ApiTest.test_analyze_endpoint analyze)) /\
  ApiTest.closing (ApiTest.results health root analyze)
  = Some (if ApiTest.main health root analyze
          then ApiTest.AllPassed else ApiTest.SomeFailed).
Proof.
  unfold ApiTest.main, ApiTest.closing, ApiTest.results, ApiTest.passed,
    ApiTest.failed.
  destruct (ApiTest.test_health_check health),
           (ApiTest.test_root_endpoint root),
           (ApiTest.test_analyze_endpoint analyze) as [[|]|];
    split; reflexivity.
Qed.
